(** * skspatial.objects.triangle: the Triangle class

    A shallow embedding of [src/skspatial/objects/triangle.py].

    - Python exceptions are an error monad [result]; every [ValueError]
      carries the message the source raises it with.
    - numpy scalars are an abstract [Scalar] carrier. The arithmetic of the
      program is IEEE-754 binary64 ([PrimFloat], what [np.float64]
      computes), the instance [Binary64.float_scalar]. The instance over
      the real numbers is the exact idealisation of it, with no rounding,
      overflow or underflow: a fact proved over the reals is a fact of the
      geometry the code implements, and it is stated as such; where
      binary64 departs from it, the departure is shown on a binary64
      triangle. Integer coordinates, which numpy keeps as int64 until a
      norm or a quotient is taken, are read as the binary64 numbers of the
      same value.
    - [Point], [Vector], [Line] and [Points] live in other modules of the
      package; the operations Triangle calls on them are modelled from the
      specification and marked as such.
    - Type annotations are not evaluated (the return annotation of
      [multiple] names [List], which the module does not import) and the
      numpy wrapper classes are not modelled; the plotting methods are
      modelled up to their first call. *)

From Stdlib Require Import String List Bool Arith Lia.
From Stdlib Require Import Reals Lra.
From Stdlib Require PrimFloat.
Import ListNotations.

Local Open Scope string_scope.
Local Open Scope list_scope.

(** ** Exceptions *)

Inductive exn : Type :=
| ValueError (msg : string)
| AttributeError (name : string)
| TypeError (msg : string)
| RecursionError.

Inductive result (A : Type) : Type :=
| Ok (a : A)
| Err (e : exn).

Arguments Ok {A} a.
Arguments Err {A} e.

Definition bind {A B : Type} (r : result A) (k : A -> result B) : result B :=
  match r with
  | Ok a => k a
  | Err e => Err e
  end.

Notation "x <- c1 ;; c2" := (bind c1 (fun x => c2))
  (at level 61, c1 at next level, right associativity).
Notation "' pat <- c1 ;; c2" := (bind c1 (fun x => match x with pat => c2 end))
  (at level 61, pat pattern, c1 at next level, right associativity).

Fixpoint mapM {A B : Type} (f : A -> result B) (l : list A) : result (list B) :=
  match l with
  | [] => Ok []
  | x :: l' => y <- f x ;; ys <- mapM f l' ;; Ok (y :: ys)
  end.

(** The messages of the source. *)
Definition msg_dimension := "The points must have the same dimension.".
Definition msg_collinear := "The points must not be collinear.".
Definition msg_side := "The side must be 'a', 'b', or 'c'.".
Definition msg_vertex := "The vertex must be 'A', 'B', or 'C'.".
Definition msg_math_domain := "math domain error".
Definition msg_tolerances := "tolerances must be non-negative".
Definition msg_zero_vector := "The vector must not be the zero vector.".
Definition msg_parallel := "The lines must not be parallel.".
Definition msg_coplanar := "The lines must be coplanar.".
Definition msg_cross_dimension := "The cross product is defined up to 3D.".

(** The error taxonomy of the specification, read off the messages. *)
Definition dimension_error : exn := ValueError msg_dimension.
Definition degeneracy_error : exn := ValueError msg_collinear.
Definition invalid_side_error : exn := ValueError msg_side.
Definition invalid_vertex_error : exn := ValueError msg_vertex.
Definition math_domain_error : exn := ValueError msg_math_domain.

(** ** Scalars *)

Class Scalar (F : Type) : Type := {
  f0 : F;
  f1 : F;
  f2 : F;
  fhalf : F;
  frel_tol : F;
  fadd : F -> F -> F;
  fsub : F -> F -> F;
  fmul : F -> F -> F;
  fdiv : F -> F -> F;
  fopp : F -> F;
  fabs : F -> F;
  fsqrt : F -> F;
  feqb : F -> F -> bool;
  fleb : F -> F -> bool;
  fltb : F -> F -> bool;
  fisinf : F -> bool;
  fisnan : F -> bool
}.

(** The arc cosine is kept apart: binary64 has no primitive for it. *)
Class Trig (F : Type) : Type := {
  facos : F -> F
}.

Section Triangle.

Context {F : Type} `{Scalar F}.

(** [x ** 2] *)
Definition fsq (x : F) : F := fmul x x.

(** ** Points and vectors *)

(** Modelled from the spec: a Point is an ordered tuple of [dimension]
    real numbers; a Vector has the same shape. *)
Definition Point : Type := list F.
Definition Vector : Type := list F.

Definition point_dimension (p : Point) : nat := length p.

Fixpoint zip_with (f : F -> F -> F) (u v : list F) : list F :=
  match u, v with
  | x :: u', y :: v' => f x y :: zip_with f u' v'
  | _, _ => []
  end.

(** Modelled from the spec: [Vector.from_points(a, b)] is [b - a]. *)
Definition from_points (a b : Point) : Vector := zip_with fsub b a.

Definition vadd (p : Point) (v : Vector) : Point := zip_with fadd p v.
Definition vscale (k : F) (v : Vector) : Vector := map (fmul k) v.

Definition dot (u v : Vector) : F := fold_right fadd f0 (zip_with fmul u v).

(** Modelled from the spec: the Euclidean norm. *)
Definition norm (v : Vector) : F := fsqrt (dot v v).

(** Modelled from the spec: [Point.distance_point], the Euclidean distance. *)
Definition distance_point (a b : Point) : F := norm (from_points a b).

Definition is_zero (v : Vector) : bool := forallb (fun x => feqb x f0) v.

Definition vec_eqb (u v : list F) : bool :=
  Nat.eqb (length u) (length v) && forallb (fun xy => feqb (fst xy) (snd xy)) (combine u v).

(** Modelled from the spec: a vector of dimension at most 3 is read as a
    3D vector with zero for the coordinates it lacks; above 3D the cross
    product is undefined, rendered here as an error. *)
Definition set_dimension3 (v : Vector) : result (F * F * F) :=
  match v with
  | [] => Ok (f0, f0, f0)
  | [x] => Ok (x, f0, f0)
  | [x; y] => Ok (x, y, f0)
  | [x; y; z] => Ok (x, y, z)
  | _ => Err (ValueError msg_cross_dimension)
  end.

Definition cross3 (u v : F * F * F) : Vector :=
  let '(u0, u1, u2) := u in
  let '(v0, v1, v2) := v in
  [ fsub (fmul u1 v2) (fmul u2 v1);
    fsub (fmul u2 v0) (fmul u0 v2);
    fsub (fmul u0 v1) (fmul u1 v0) ].

(** Modelled from the spec: [Vector.cross]. *)
Definition cross (u v : Vector) : result Vector :=
  a <- set_dimension3 u ;;
  b <- set_dimension3 v ;;
  Ok (cross3 a b).

(** ** Lines *)

Record Line : Type := mkLine {
  line_point : Point;
  line_direction : Vector
}.

(** Modelled from the spec: a Line is a (point, direction) pair whose
    direction must be non-zero. *)
Definition Line_init (p : Point) (d : Vector) : result Line :=
  if is_zero d then Err (ValueError msg_zero_vector)
  else Ok (mkLine p d).

Definition Line_from_points (a b : Point) : result Line :=
  Line_init a (from_points a b).

(** Modelled from the spec: [Line.project_point], the orthogonal projection
    of a point onto the line. *)
Definition project_point (l : Line) (p : Point) : Point :=
  let d := line_direction l in
  let w := from_points (line_point l) p in
  vadd (line_point l) (vscale (fdiv (dot d w) (dot d d)) d).

(** Modelled from the spec: [Line.intersect_line] solves for the two scalar
    parameters of the simultaneous point equality; parallel lines and lines
    that do not meet are errors. *)
Definition intersect_line (l1 l2 : Line) : result Point :=
  let d1 := line_direction l1 in
  let d2 := line_direction l2 in
  let w := from_points (line_point l2) (line_point l1) in
  let a := dot d1 d1 in
  let b := dot d1 d2 in
  let c := dot d2 d2 in
  let d := dot d1 w in
  let e := dot d2 w in
  let den := fsub (fmul a c) (fmul b b) in
  if feqb den f0 then Err (ValueError msg_parallel)
  else
    let t1 := fdiv (fsub (fmul b e) (fmul c d)) den in
    let t2 := fdiv (fsub (fmul a e) (fmul b d)) den in
    let p1 := vadd (line_point l1) (vscale t1 d1) in
    let p2 := vadd (line_point l2) (vscale t2 d2) in
    if vec_eqb p1 p2 then Ok p1 else Err (ValueError msg_coplanar).

(** ** The Points collection *)

Fixpoint combinations2 {A : Type} (l : list A) : list (A * A) :=
  match l with
  | [] => []
  | x :: l' => map (pair x) l' ++ combinations2 l'
  end.

(** The 2x2 minors of the matrix with rows [u] and [v]. *)
Definition minors (u v : Vector) : list F :=
  map (fun pq : (F * F) * (F * F) =>
         fsub (fmul (fst (fst pq)) (snd (snd pq)))
              (fmul (fst (snd pq)) (snd (fst pq))))
      (combinations2 (combine u v)).

Definition is_parallel_tol (tol : F) (u v : Vector) : bool :=
  forallb (fun m => fleb (fabs m) tol) (minors u v).

(** Modelled from the spec: the n-point collinearity test of Points, all
    the vectors from the first point being pairwise parallel within an
    absolute tolerance. *)
Definition are_collinear_tol (tol : F) (pts : list Point) : bool :=
  match pts with
  | [] => true
  | p0 :: rest =>
      forallb (fun uv : Vector * Vector => is_parallel_tol tol (fst uv) (snd uv))
              (combinations2 (map (from_points p0) rest))
  end.

(** [Triangle.__init__] calls [Points.are_collinear] with its default
    tolerance, whose value is not part of the source: the test is a
    parameter of the constructor. *)
Variable are_collinear : list Point -> bool.

(** ** Triangle *)

Record Triangle : Type := mkTriangle {
  point_a : Point;
  point_b : Point;
  point_c : Point;
  dimension : nat
}.

(** [Triangle.__init__] *)
Definition Triangle_init (pa pb pc : list F) : result Triangle :=
  let point_a := pa in
  let point_b := pb in
  let point_c := pc in
  if negb (Nat.eqb (point_dimension point_a) (point_dimension point_b)
           && Nat.eqb (point_dimension point_b) (point_dimension point_c))
  then Err (ValueError msg_dimension)
  else if are_collinear [point_a; point_b; point_c]
  then Err (ValueError msg_collinear)
  else Ok (mkTriangle point_a point_b point_c (point_dimension point_a)).

(** [Triangle.normal] *)
Definition normal (t : Triangle) : result Vector :=
  let vector_ab := from_points (point_a t) (point_b t) in
  let vector_ac := from_points (point_a t) (point_c t) in
  cross vector_ab vector_ac.

(** [Triangle.area] *)
Definition area (t : Triangle) : result F :=
  n <- normal t ;;
  Ok (fmul fhalf (norm n)).

(** [Triangle.points] *)
Definition points (t : Triangle) : Point * Point * Point :=
  (point_a t, point_b t, point_c t).

(** [Triangle.lines] *)
Definition lines (t : Triangle) : result (Line * Line * Line) :=
  line_ab <- Line_from_points (point_a t) (point_b t) ;;
  line_bc <- Line_from_points (point_b t) (point_c t) ;;
  line_ca <- Line_from_points (point_c t) (point_a t) ;;
  Ok (line_ab, line_bc, line_ca).

(** [Triangle.side_length] *)
Definition side_length (t : Triangle) (side : string) : result F :=
  if side =? "a" then Ok (distance_point (point_b t) (point_c t))
  else if side =? "b" then Ok (distance_point (point_a t) (point_c t))
  else if side =? "c" then Ok (distance_point (point_a t) (point_b t))
  else Err (ValueError msg_side).

(** [Triangle.side_lengths] *)
Definition side_lengths (t : Triangle) : result (F * F * F) :=
  a <- side_length t "a" ;;
  b <- side_length t "b" ;;
  c <- side_length t "c" ;;
  Ok (a, b, c).

(** [Triangle.altitude] *)
Definition altitude (t : Triangle) (vertex : string) : result Line :=
  '(line_ab, line_bc, line_ca) <- lines t ;;
  if vertex =? "A" then
    let point_a_proj := project_point line_bc (point_a t) in
    Line_from_points (point_a t) point_a_proj
  else if vertex =? "B" then
    let point_proj := project_point line_ca (point_b t) in
    Line_from_points (point_b t) point_proj
  else if vertex =? "C" then
    let point_proj := project_point line_ab (point_c t) in
    Line_from_points (point_c t) point_proj
  else Err (ValueError msg_vertex).

(** [Triangle.orthocenter] *)
Definition orthocenter (t : Triangle) : result Point :=
  line_alt_a <- altitude t "A" ;;
  line_alt_b <- altitude t "B" ;;
  intersect_line line_alt_a line_alt_b.

(** ** Attribute lookup and [multiple] *)

(** The attributes of a Triangle instance: what [__init__] assigns, what
    the class body defines, and what every instance has from [object] and
    from the class statement ([A_object], by name). *)
Inductive attribute : Type :=
| A_point_a | A_point_b | A_point_c | A_dimension
| M_init | M_repr | M_multiple | M_normal | M_area | M_points | M_lines
| M_side_length | M_side_lengths | M_angle | M_altitude | M_orthocenter
| M_classify | M_is_right | M_plot_2d | M_plot_3d | M_plotter
| A_object (name : string).

(** What an attribute reached through [multiple] can return. *)
Inductive value : Type :=
| VFloat (x : F)
| VLine (l : Line)
| VNone
| VNotImplemented
| VAttribute (a : attribute).

Definition as_float (v : value) : result F :=
  match v with
  | VFloat x => Ok x
  | _ => Err (TypeError "a real number is required")
  end.

Definition attributes : list (string * attribute) :=
  [ ("point_a", A_point_a); ("point_b", A_point_b); ("point_c", A_point_c);
    ("dimension", A_dimension);
    ("__init__", M_init); ("__repr__", M_repr); ("multiple", M_multiple);
    ("normal", M_normal); ("area", M_area); ("points", M_points);
    ("lines", M_lines); ("side_length", M_side_length);
    ("side_lengths", M_side_lengths); ("angle", M_angle);
    ("altitude", M_altitude); ("orthocenter", M_orthocenter);
    ("classify", M_classify); ("is_right", M_is_right);
    ("plot_2d", M_plot_2d); ("plot_3d", M_plot_3d); ("plotter", M_plotter) ].

(** The attributes an instance of a class without bases has besides those
    of the class body: the methods of [object] and what the class statement
    sets (CPython 3.11 and 3.12). The class overrides [__init__] and
    [__repr__], which are in the table above. *)
Definition object_attributes : list string :=
  [ "__class__"; "__delattr__"; "__dict__"; "__dir__"; "__doc__"; "__eq__";
    "__format__"; "__ge__"; "__getattribute__"; "__getstate__"; "__gt__";
    "__hash__"; "__init_subclass__"; "__le__"; "__lt__"; "__module__";
    "__ne__"; "__new__"; "__reduce__"; "__reduce_ex__"; "__setattr__";
    "__sizeof__"; "__str__"; "__subclasshook__"; "__weakref__" ].

Fixpoint lookup (name : string) (table : list (string * attribute)) : option attribute :=
  match table with
  | [] => None
  | (k, v) :: table' => if name =? k then Some v else lookup name table'
  end.

(** [getattr(self, name)] *)
Definition getattr (name : string) : result attribute :=
  match lookup name attributes with
  | Some m => Ok m
  | None =>
      if existsb (String.eqb name) object_attributes then Ok (A_object name)
      else Err (AttributeError name)
  end.

(** The rich comparisons of [object] answer NotImplemented for another
    object. *)
Definition comparison_attributes : list string :=
  [ "__eq__"; "__ne__"; "__lt__"; "__le__"; "__gt__"; "__ge__" ].

(** The attributes [__init__] stores on the instance. *)
Definition stored_attributes : list string :=
  [ "point_a"; "point_b"; "point_c"; "dimension" ].

(** An attribute from [object], called with one positional argument that is
    a character of a string: the comparisons and [__subclasshook__] answer
    NotImplemented, [__getattribute__] looks the name up, [__delattr__]
    finds only stored attributes, and the others are not callable or take
    another number or kind of argument. *)
Definition call_object (name x : string) : result value :=
  if existsb (String.eqb name) comparison_attributes then Ok VNotImplemented
  else if name =? "__subclasshook__" then Ok VNotImplemented
  else if name =? "__getattribute__" then a <- getattr x ;; Ok (VAttribute a)
  else if name =? "__delattr__" then
    if existsb (String.eqb x) stored_attributes then Ok VNone
    else Err (AttributeError x)
  else Err (TypeError "wrong number or kind of arguments").

(** Iterating over a [str] yields its characters as one-character strings. *)
Fixpoint chars (s : string) : list string :=
  match s with
  | EmptyString => []
  | String c s' => String c EmptyString :: chars s'
  end.

Definition unpack3 {A : Type} (l : list A) : result (A * A * A) :=
  match l with
  | [x; y; z] => Ok (x, y, z)
  | _ => Err (ValueError "wrong number of values to unpack")
  end.

(** ** The [math] functions the class calls *)

(** The keyword arguments forwarded to [math.isclose]. *)
Record tolerances : Type := mkTolerances {
  rel_tol : option F;
  abs_tol : option F
}.

Definition default_tolerances : tolerances := mkTolerances None None.

(** [math.isclose(a, b, *, rel_tol=1e-09, abs_tol=0.0)] *)
Definition math_isclose (a b : F) (kwargs : tolerances) : result bool :=
  let rel := match rel_tol kwargs with Some r => r | None => frel_tol end in
  let abs := match abs_tol kwargs with Some r => r | None => f0 end in
  if fltb rel f0 || fltb abs f0 then Err (ValueError msg_tolerances)
  else if feqb a b then Ok true
  else if fisinf a || fisinf b then Ok false
  else
    let diff := fabs (fsub b a) in
    Ok (fleb diff (fabs (fmul rel b)) || fleb diff (fabs (fmul rel a))
        || fleb diff abs).

Definition acos_domain (x : F) : bool := fleb (fopp f1) x && fleb x f1.

Context `{Trig F}.

(** [math.acos(x)] *)
Definition math_acos (x : F) : result F :=
  if fisnan x then Ok x
  else if acos_domain x then Ok (facos x)
  else Err (ValueError msg_math_domain).

(** ** The methods that go through [multiple] *)

(** [Triangle.multiple], open in the call of the method it has looked up. *)
Definition multiple_with (call : attribute -> string -> result value)
    (name_method : string) (inputs : string) : result (list value) :=
  method <- getattr name_method ;;
  mapM (call method) (chars inputs).

Definition with_floats (va vb vc : value) (k : F -> F -> F -> F) : result F :=
  a <- as_float va ;;
  b <- as_float vb ;;
  c <- as_float vc ;;
  Ok (k a b c).

(** [Triangle.angle], lines 322-332: the argument of the arc cosine. *)
Definition angle_arg (a b c : value) (vertex : string) : result F :=
  if vertex =? "A" then
    with_floats a b c (fun a b c =>
      fdiv (fsub (fadd (fsq b) (fsq c)) (fsq a)) (fmul (fmul f2 b) c))
  else if vertex =? "B" then
    with_floats a b c (fun a b c =>
      fdiv (fsub (fadd (fsq a) (fsq c)) (fsq b)) (fmul (fmul f2 a) c))
  else if vertex =? "C" then
    with_floats a b c (fun a b c =>
      fdiv (fsub (fadd (fsq a) (fsq b)) (fsq c)) (fmul (fmul f2 a) b))
  else Err (ValueError msg_vertex).

(** [Triangle.angle] from line 322 on. *)
Definition angle_of_lengths (lengths : list value) (vertex : string) : result F :=
  '(a, b, c) <- unpack3 lengths ;;
  arg <- angle_arg a b c vertex ;;
  math_acos arg.

(** [Triangle.angle], open in [self.multiple]. *)
Definition angle_with (multiple : string -> string -> result (list value))
    (vertex : string) : result F :=
  lengths <- multiple "length" "abc" ;;
  angle_of_lengths lengths vertex.

(** [Triangle.plot_2d] and [Triangle.plot_3d] up to the drawing calls, open
    in [self.multiple]. *)
Definition plot_with (multiple : string -> string -> result (list value))
    (part : string) : result value :=
  if part =? "points" then _ <- multiple "point" "ABC" ;; Ok VNone
  else if part =? "lines" then _ <- multiple "line" "abc" ;; Ok VNone
  else Ok VNone.

Definition not_callable : exn := TypeError "object is not callable".
Definition bad_arguments : exn := TypeError "wrong number of positional arguments".

(** [method(x)]: the attribute found by [getattr], called with one positional
    argument. [depth] is the room left on the interpreter's call stack. *)
Fixpoint call_method (depth : nat) (t : Triangle) (method : attribute)
    (x : string) : result value :=
  match depth with
  | O => Err RecursionError
  | S depth' =>
      let multiple := multiple_with (call_method depth' t) in
      match method with
      | M_side_length => r <- side_length t x ;; Ok (VFloat r)
      | M_altitude => r <- altitude t x ;; Ok (VLine r)
      | M_angle => r <- angle_with multiple x ;; Ok (VFloat r)
      | M_plot_2d | M_plot_3d => plot_with multiple "points"
      | A_point_a | A_point_b | A_point_c | A_dimension => Err not_callable
      | A_object name => call_object name x
      | _ => Err bad_arguments
      end
  end.

Definition recursion_limit : nat := 1000.

(** [Triangle.multiple] *)
Definition multiple (t : Triangle) (name_method inputs : string)
    : result (list value) :=
  multiple_with (call_method recursion_limit t) name_method inputs.

(** [Triangle.angle] *)
Definition angle (t : Triangle) (vertex : string) : result F :=
  angle_with (multiple t) vertex.

Definition isclose_values (kwargs : tolerances) (p : value * value) : result bool :=
  a <- as_float (fst p) ;;
  b <- as_float (snd p) ;;
  math_isclose a b kwargs.

Definition count_true (flags : list bool) : nat :=
  length (filter (fun b : bool => b) flags).

(** [Triangle.classify] from line 465 on. *)
Definition classify_of_lengths (lengths : list value) (kwargs : tolerances)
    : result string :=
  let pairs := combinations2 lengths in
  flags <- mapM (isclose_values kwargs) pairs ;;
  let n_pairs_close := count_true flags in
  if Nat.eqb n_pairs_close 3 then Ok "equilateral"
  else if Nat.eqb n_pairs_close 1 then Ok "isosceles"
  else Ok "scalene".

(** [Triangle.classify] *)
Definition classify (t : Triangle) (kwargs : tolerances) : result string :=
  lengths <- multiple t "length" "abc" ;;
  classify_of_lengths lengths kwargs.

Fixpoint insert_sorted (x : F) (l : list F) : list F :=
  match l with
  | [] => [x]
  | y :: l' => if fltb y x then y :: insert_sorted x l' else x :: l
  end.

(** [sorted(...)] on numbers: ascending and stable. *)
Definition sorted (l : list F) : list F := fold_right insert_sorted [] l.

(** [Triangle.is_right] after the call of [multiple]. *)
Definition is_right_of_lengths (lengths : list value) (kwargs : tolerances)
    : result bool :=
  numbers <- mapM as_float lengths ;;
  '(a, b, c) <- unpack3 (sorted numbers) ;;
  math_isclose (fadd (fsq a) (fsq b)) (fsq c) kwargs.

(** [Triangle.is_right] *)
Definition is_right (t : Triangle) (kwargs : tolerances) : result bool :=
  lengths <- multiple t "length" "abc" ;;
  is_right_of_lengths lengths kwargs.

End Triangle.

(** ** The two carriers *)

Definition Rleb (x y : R) : bool := if Rle_dec x y then true else false.
Definition Rltb (x y : R) : bool := if Rlt_dec x y then true else false.
Definition Reqb (x y : R) : bool := if Req_dec_T x y then true else false.

(** Exact arithmetic: the real numbers, where nothing is rounded, nothing
    overflows and no value is infinite or NaN. This is not what
    [np.float64] computes; it is the idealisation against which the
    geometric facts are stated. *)
#[export] Instance R_scalar : Scalar R := {
  f0 := 0%R;
  f1 := 1%R;
  f2 := 2%R;
  fhalf := (/ 2)%R;
  frel_tol := (/ 1000000000)%R;
  fadd := Rplus;
  fsub := Rminus;
  fmul := Rmult;
  fdiv := Rdiv;
  fopp := Ropp;
  fabs := Rabs;
  fsqrt := R_sqrt.sqrt;
  feqb := Reqb;
  fleb := Rleb;
  fltb := Rltb;
  fisinf := fun _ => false;
  fisnan := fun _ => false
}.

#[export] Instance R_trig : Trig R := {
  facos := acos
}.

(** IEEE-754 binary64, the arithmetic of [np.float64]. *)
Module Binary64.
Import PrimFloat.

#[export] Instance float_scalar : Scalar float := {
  f0 := 0%float;
  f1 := 1%float;
  f2 := 2%float;
  fhalf := 0.5%float;
  frel_tol := 0x1.12e0be826d695p-30%float;  (* 1e-09 *)
  fadd := PrimFloat.add;
  fsub := PrimFloat.sub;
  fmul := PrimFloat.mul;
  fdiv := PrimFloat.div;
  fopp := PrimFloat.opp;
  fabs := PrimFloat.abs;
  fsqrt := PrimFloat.sqrt;
  feqb := PrimFloat.eqb;
  fleb := PrimFloat.leb;
  fltb := PrimFloat.ltb;
  fisinf := PrimFloat.is_infinity;
  fisnan := PrimFloat.is_nan
}.

End Binary64.

(** ** Exact geometry over the reals *)

(** Two vectors are linearly dependent: some non-trivial combination of
    them vanishes. *)
Definition linearly_dependent (u v : list R) : Prop :=
  exists s t : R, (s <> 0 \/ t <> 0)%R /\
    Forall2 (fun x y => (s * x + t * y = 0)%R) u v.

(** Three points lie on a common line. *)
Definition collinear3 (a b c : list R) : Prop :=
  linearly_dependent (from_points a b) (from_points a c).

(** A collinearity test is complete when it reports every exactly collinear
    triple, whatever else its tolerance lets through. *)
Definition complete_collinearity_test (test : list (list R) -> bool) : Prop :=
  forall a b c, collinear3 a b c -> test [a; b; c] = true.

(** The exact test: tolerance zero. *)
Definition are_collinear_exact : list (list R) -> bool :=
  are_collinear_tol 0%R.

(** Exchanging two vertices. *)
Definition swap_ab {F : Type} (t : @Triangle F) : Triangle :=
  mkTriangle (point_b t) (point_a t) (point_c t) (dimension t).
Definition swap_ac {F : Type} (t : @Triangle F) : Triangle :=
  mkTriangle (point_c t) (point_b t) (point_a t) (dimension t).
Definition swap_bc {F : Type} (t : @Triangle F) : Triangle :=
  mkTriangle (point_a t) (point_c t) (point_b t) (dimension t).

(** The combination [s*u + t*v]. *)
Definition lincomb (s t : R) (u v : list R) : list R :=
  vadd (vscale s u) (vscale t v).

(** The side lengths as [multiple] would hand them to its callers. *)
Definition side_values {F : Type} `{Scalar F} (t : @Triangle F) : list value :=
  [ VFloat (distance_point (point_b t) (point_c t));
    VFloat (distance_point (point_a t) (point_c t));
    VFloat (distance_point (point_a t) (point_b t)) ].

(** The labels the methods accept. *)
Definition side_labels : list string := ["a"; "b"; "c"].
Definition vertex_labels : list string := ["A"; "B"; "C"].

(** The three points have one dimension. *)
Definition same_dimension {F : Type} (pa pb pc : list F) : Prop :=
  length pa = length pb /\ length pb = length pc.

(** ** Sample triangles *)

(** The triangles of the docstrings, over the reals. *)
Definition triangle_010_100 : @Triangle R :=
  mkTriangle [0; 0]%R [0; 1]%R [1; 0]%R 2.
Definition triangle_12_20 : @Triangle R :=
  mkTriangle [0; 0]%R [1; 2]%R [2; 0]%R 2.
Definition triangle_10_01 : @Triangle R :=
  mkTriangle [0; 0]%R [1; 0]%R [0; 1]%R 2.
Definition triangle_3d : @Triangle R :=
  mkTriangle [3; -5; 1]%R [5; 2; 1]%R [9; 4; 2]%R 3.

Module Sample64.
Import PrimFloat.

(** A thin triangle with integer vertices: twice its area is 1, its longest
    side is longer than 23000. *)
Definition thin_a : list float := [0; 0]%float.
Definition thin_b : list float := [853; 1]%float.
Definition thin_c : list float := [23032; 27]%float.
Definition thin : @Triangle float := mkTriangle thin_a thin_b thin_c 2.

(** An absolute tolerance for the collinearity test, 2^-20 (about 1e-06). *)
Definition tolerance : float := 0x1p-20%float.

(** The triangles of the docstrings of [is_right] and [classify]. *)
Definition right_010_100 : @Triangle float :=
  mkTriangle [0; 0]%float [0; 1]%float [1; 0]%float 2.
Definition acute_12_20 : @Triangle float :=
  mkTriangle [0; 0]%float [1; 2]%float [2; 0]%float 2.
Definition isosceles_10_11 : @Triangle float :=
  mkTriangle [0; 0]%float [1; 0]%float [1; 1]%float 2.
Definition scalene_10_02 : @Triangle float :=
  mkTriangle [0; 0]%float [1; 0]%float [0; 2]%float 2.

(** The triangle of the docstring of [normal], with float coordinates. *)
Definition corner_10_01 : @Triangle float :=
  mkTriangle [0; 0]%float [1; 0]%float [0; 1]%float 2.

Definition unit_z : list float := [0; 0; 1]%float.

(** A triangle with decimal coordinates: (2, 1.2), (2.5, 0.6), (0.3, 1.5),
    each the binary64 number nearest to the decimal. *)
Definition decimal_a : list float := [2; 0x1.3333333333333p+0]%float.
Definition decimal_b : list float := [2.5; 0x1.3333333333333p-1]%float.
Definition decimal_c : list float := [0x1.3333333333333p-2; 1.5]%float.
Definition decimal : @Triangle float :=
  mkTriangle decimal_a decimal_b decimal_c 2.

(** A triangle with sides of about 2^664: the products of its coordinates
    are beyond the largest binary64 number. *)
Definition huge_a : list float := [0; 0]%float.
Definition huge_b : list float := [0x1p+664; 0x1p+664]%float.
Definition huge_c : list float := [0x1p+664; 0x1p+665]%float.
Definition huge : @Triangle float := mkTriangle huge_a huge_b huge_c 2.

(** A right triangle with legs of 2^-333: the square of its doubled area is
    below the smallest positive binary64 number. *)
Definition tiny_a : list float := [0; 0]%float.
Definition tiny_b : list float := [0x1p-333; 0]%float.
Definition tiny_c : list float := [0; 0x1p-333]%float.
Definition tiny : @Triangle float := mkTriangle tiny_a tiny_b tiny_c 2.

(** A right triangle with legs 2^-565 and 2^548: twice its area is 2^-17. *)
Definition sliver_a : list float := [0; 0]%float.
Definition sliver_b : list float := [0x1p-565; 0]%float.
Definition sliver_c : list float := [0; 0x1p+548]%float.
Definition sliver : @Triangle float :=
  mkTriangle sliver_a sliver_b sliver_c 2.

(** A right triangle with legs 2^-540 and 1. *)
Definition flat_a : list float := [0; 0]%float.
Definition flat_b : list float := [0x1p-540; 0]%float.
Definition flat_c : list float := [0; 1]%float.
Definition flat : @Triangle float := mkTriangle flat_a flat_b flat_c 2.

(** Three lengths of which exactly two pairs are within 0.5 of each other. *)
Definition stepped_lengths : list (@value float) :=
  [VFloat 1%float; VFloat 1.5%float; VFloat 2%float].
Definition half_abs_tol : @tolerances float :=
  mkTolerances None (Some 0.5%float).

End Sample64.

(** ** Plotting and further notions *)

(** [Triangle.plot_2d] and [Triangle.plot_3d]. The axes and the keyword
    arguments are only handed to the drawing calls, which come after the
    call of [multiple]; [part] selects that call. *)
Definition plot_2d {F : Type} `{Scalar F} `{Trig F} (t : @Triangle F)
    (part : string) : result value :=
  plot_with (multiple t) part.

Definition plot_3d {F : Type} `{Scalar F} `{Trig F} (t : @Triangle F)
    (part : string) : result value :=
  plot_with (multiple t) part.

(** The names [getattr] finds. *)
Definition attribute_names : list string := map fst attributes.

(** What the specification asks of the result of [angle]: to be the arc
    cosine of an argument that lies in [-1, 1], clamped if need be. *)
Definition arccos_of_clamped {F : Type} `{Scalar F} `{Trig F} (r : result F)
    : Prop :=
  exists x : F, acos_domain x = true /\ r = Ok (facos x).

(** Orthogonality, and a point lying on a line. *)
Definition perpendicular (u v : list R) : Prop := dot u v = 0%R.

Definition on_line (p : list R) (l : @Line R) : Prop :=
  exists k : R, p = vadd (line_point l) (vscale k (line_direction l)).

(** * Properties *)

(** ** Attribute lookup: the calls of [multiple] in the class *)

Section Dispatch.

Context {F : Type} `{Scalar F} `{Trig F}.

Lemma getattr_length : getattr "length" = Err (AttributeError "length").
Proof. reflexivity. Qed.

Lemma getattr_side_length : getattr "side_length" = Ok M_side_length.
Proof. reflexivity. Qed.

(** No attribute of the class is called [length]: looking it up fails
    before any method is called, whatever the call would do. *)
Lemma multiple_with_length (call : attribute -> string -> result (@value F))
    (inputs : string) :
  multiple_with call "length" inputs = Err (AttributeError "length").
Proof. reflexivity. Qed.

Lemma multiple_length (t : Triangle) (inputs : string) :
  multiple t "length" inputs = Err (AttributeError "length").
Proof. apply multiple_with_length. Qed.

(** The method the callers mean exists under another name and answers. *)
Lemma multiple_side_length (t : Triangle) :
  multiple t "side_length" "abc" =
  Ok [ VFloat (distance_point (point_b t) (point_c t));
       VFloat (distance_point (point_a t) (point_c t));
       VFloat (distance_point (point_a t) (point_b t)) ].
Proof.
  unfold multiple, multiple_with, recursion_limit.
  change 1000 with (S 999). reflexivity.
Qed.

Lemma side_lengths_ok (t : Triangle) :
  side_lengths t =
  Ok (distance_point (point_b t) (point_c t),
      distance_point (point_a t) (point_c t),
      distance_point (point_a t) (point_b t)).
Proof. reflexivity. Qed.

(** C1. [angle] never returns an angle: for every triangle and every label
    its first statement, [self.multiple('length', 'abc')], raises
    AttributeError, so the law of cosines below it is not reached. *)
Theorem angle_raises_AttributeError (t : Triangle) (vertex : string) :
  angle t vertex = Err (AttributeError "length").
Proof.
  unfold angle, angle_with. rewrite multiple_length. reflexivity.
Qed.

(** C3. [classify] never returns a class: for every triangle and all
    tolerance options it raises AttributeError at [self.multiple('length',
    'abc')], before any pair of lengths is compared. *)
Theorem classify_raises_AttributeError (t : Triangle) (kwargs : tolerances) :
  classify t kwargs = Err (AttributeError "length").
Proof.
  unfold classify. rewrite multiple_length. reflexivity.
Qed.

(** C4. [is_right] never returns a boolean: for every triangle and all
    tolerance options it raises AttributeError at [self.multiple('length',
    'abc')], before the lengths are sorted. *)
Theorem is_right_raises_AttributeError (t : Triangle) (kwargs : tolerances) :
  is_right t kwargs = Err (AttributeError "length").
Proof.
  unfold is_right. rewrite multiple_length. reflexivity.
Qed.

(** The code of [classify] below its first line: the three pairs are
    compared in the order (a,b), (a,c), (b,c) and the number of close pairs
    decides, 3 giving 'equilateral', 1 'isosceles', 0 and 2 'scalene'. *)
Lemma classify_of_lengths_counts (a b c : F) (kwargs : tolerances)
    (ab ac bc : bool) :
  math_isclose a b kwargs = Ok ab ->
  math_isclose a c kwargs = Ok ac ->
  math_isclose b c kwargs = Ok bc ->
  classify_of_lengths [VFloat a; VFloat b; VFloat c] kwargs =
    Ok (match count_true [ab; ac; bc] with
        | 3 => "equilateral"
        | 1 => "isosceles"
        | _ => "scalene"
        end).
Proof.
  intros Eab Eac Ebc. unfold classify_of_lengths, isclose_values. simpl.
  rewrite Eab, Eac, Ebc. simpl.
  destruct ab, ac, bc; reflexivity.
Qed.

(** The code of [is_right] below its first line: the Pythagorean test on
    the sorted lengths. *)
Lemma is_right_of_lengths_sorted (a b c x y z : F) (kwargs : tolerances) :
  sorted [a; b; c] = [x; y; z] ->
  is_right_of_lengths [VFloat a; VFloat b; VFloat c] kwargs =
    math_isclose (fadd (fsq x) (fsq y)) (fsq z) kwargs.
Proof.
  intros E. unfold is_right_of_lengths. simpl mapM. unfold bind at 1.
  rewrite E. reflexivity.
Qed.

End Dispatch.

(** ** Label checks *)

Section Labels.

Context {F : Type} `{Scalar F} `{Trig F}.

Lemma in_labels3 (x l1 l2 l3 : string) :
  In x [l1; l2; l3] <-> x = l1 \/ x = l2 \/ x = l3.
Proof.
  simpl. split.
  - intros [E | [E | [E | []]]]; auto.
  - intros [E | [E | E]]; auto.
Qed.

(** [side_length] raises its invalid-argument error exactly for the labels
    outside 'a', 'b', 'c', and returns a length for the others. *)
Lemma side_length_label (t : Triangle) (side : string) :
  (side_length t side = Err invalid_side_error <-> ~ In side side_labels) /\
  (In side side_labels -> exists x, side_length t side = Ok x).
Proof.
  unfold side_labels. rewrite in_labels3. unfold side_length.
  destruct (String.eqb_spec side "a") as [Ea | Na].
  { split; [split; [discriminate | tauto] | eauto]. }
  destruct (String.eqb_spec side "b") as [Eb | Nb].
  { split; [split; [discriminate | tauto] | eauto]. }
  destruct (String.eqb_spec side "c") as [Ec | Nc].
  { split; [split; [discriminate | tauto] | eauto]. }
  split; [split; [tauto | reflexivity] | tauto].
Qed.

Lemma Line_init_not_vertex_error (p : Point) (d : Vector) :
  Line_init p d <> Err invalid_vertex_error.
Proof.
  unfold Line_init. destruct (is_zero d); discriminate.
Qed.

(** When the three edge lines exist, [altitude] raises its invalid-argument
    error exactly for the labels outside 'A', 'B', 'C'. *)
Lemma altitude_label (t : Triangle) (vertex : string) (ls : Line * Line * Line) :
  lines t = Ok ls ->
  (altitude t vertex = Err invalid_vertex_error <-> ~ In vertex vertex_labels).
Proof.
  intros Hl. unfold vertex_labels. rewrite in_labels3.
  unfold altitude. rewrite Hl. destruct ls as [[lab lbc] lca]. simpl.
  destruct (String.eqb_spec vertex "A") as [Ea | Na].
  { split; [intros E; now apply Line_init_not_vertex_error in E | tauto]. }
  destruct (String.eqb_spec vertex "B") as [Eb | Nb].
  { split; [intros E; now apply Line_init_not_vertex_error in E | tauto]. }
  destruct (String.eqb_spec vertex "C") as [Ec | Nc].
  { split; [intros E; now apply Line_init_not_vertex_error in E | tauto]. }
  split; [tauto | reflexivity].
Qed.

(** C5. The label check of [angle] is never reached: for every triangle and
    every label, valid or not, [angle] raises AttributeError, which is not the
    invalid-argument error; [side_length] on the same triangle does check its
    label. *)
Theorem angle_label_check_unreachable (t : Triangle) (vertex : string) :
  angle t vertex = Err (AttributeError "length") /\
  angle t vertex <> Err invalid_vertex_error /\
  angle t "D" = Err (AttributeError "length") /\
  angle t "A" = Err (AttributeError "length") /\
  side_length t "d" = Err invalid_side_error.
Proof.
  assert (E : forall v, angle t v = Err (AttributeError "length")).
  { intros v. unfold angle, angle_with. now rewrite multiple_length. }
  rewrite !E. repeat split. discriminate.
Qed.

End Labels.

(** ** Construction *)

Section Construction.

Context {F : Type}.
Variable are_collinear : list (@Point F) -> bool.

Lemma same_dimension_eqb (pa pb pc : list F) :
  Nat.eqb (point_dimension pa) (point_dimension pb)
  && Nat.eqb (point_dimension pb) (point_dimension pc) = true
  <-> same_dimension pa pb pc.
Proof.
  unfold same_dimension, point_dimension.
  rewrite andb_true_iff, !Nat.eqb_eq. tauto.
Qed.

Lemma Triangle_init_inv (pa pb pc : list F) (t : Triangle) :
  Triangle_init are_collinear pa pb pc = Ok t ->
  same_dimension pa pb pc /\ are_collinear [pa; pb; pc] = false /\
  t = mkTriangle pa pb pc (length pa).
Proof.
  unfold Triangle_init.
  destruct (Nat.eqb (point_dimension pa) (point_dimension pb)
            && Nat.eqb (point_dimension pb) (point_dimension pc)) eqn:D;
    simpl; [| discriminate].
  destruct (are_collinear [pa; pb; pc]) eqn:C; [discriminate |].
  intros E. injection E as <-.
  apply same_dimension_eqb in D. auto.
Qed.

(** C6. Construction checks the dimensions first and collinearity second:
    points of differing dimension give the dimension error whatever the
    collinearity test says; points of one dimension that are collinear give
    the degeneracy error; construction succeeds exactly when both checks
    pass, keeping the three points; and no other error can come out. *)
Theorem Triangle_init_validation_order (pa pb pc : list F) :
  (~ same_dimension pa pb pc ->
     Triangle_init are_collinear pa pb pc = Err dimension_error) /\
  (same_dimension pa pb pc -> are_collinear [pa; pb; pc] = true ->
     Triangle_init are_collinear pa pb pc = Err degeneracy_error) /\
  (forall t, Triangle_init are_collinear pa pb pc = Ok t <->
     (same_dimension pa pb pc /\ are_collinear [pa; pb; pc] = false /\
      t = mkTriangle pa pb pc (length pa))) /\
  (forall e, Triangle_init are_collinear pa pb pc = Err e ->
     e = dimension_error \/ e = degeneracy_error).
Proof.
  pose proof (same_dimension_eqb pa pb pc) as D.
  unfold Triangle_init.
  destruct (Nat.eqb (point_dimension pa) (point_dimension pb)
            && Nat.eqb (point_dimension pb) (point_dimension pc)); simpl.
  - assert (S : same_dimension pa pb pc) by now apply D.
    destruct (are_collinear [pa; pb; pc]).
    + split; [tauto |]. split; [reflexivity |]. split.
      * intros t. split; [discriminate |]. intros [_ [C _]]. discriminate.
      * intros e E. injection E as <-. now right.
    + split; [tauto |]. split; [discriminate |]. split.
      * intros t. split.
        -- intros E. injection E as <-. auto.
        -- intros [_ [_ ->]]. reflexivity.
      * discriminate.
  - assert (S : ~ same_dimension pa pb pc).
    { intros S. apply D in S. discriminate. }
    split; [reflexivity |]. split; [tauto |]. split.
    + intros t. split; [discriminate | tauto].
    + intros e E. injection E as <-. now left.
Qed.

End Construction.

(** ** The argument of the arc cosine *)

Section ArcCosine.

Context {F : Type} `{Scalar F} `{Trig F}.

Lemma angle_arg_label (a b c : F) (vertex : string) :
  In vertex vertex_labels ->
  exists arg, angle_arg (VFloat a) (VFloat b) (VFloat c) vertex = Ok arg.
Proof.
  unfold vertex_labels. rewrite in_labels3.
  intros [-> | [-> | ->]]; eexists; reflexivity.
Qed.

Lemma math_acos_outside (x : F) :
  fisnan x = false -> acos_domain x = false ->
  math_acos x = Err math_domain_error.
Proof.
  intros N D. unfold math_acos. now rewrite N, D.
Qed.

Lemma math_acos_inside (x : F) :
  fisnan x = false -> acos_domain x = true ->
  math_acos x = Ok (facos x).
Proof.
  intros N D. unfold math_acos. now rewrite N, D.
Qed.

Lemma error_not_arccos_of_clamped (e : exn) : ~ arccos_of_clamped (Err e).
Proof. intros [x [_ E]]. discriminate. Qed.


End ArcCosine.

(** ** Binary64 evaluation *)

Module Float64.
Import PrimFloat.
Import Binary64 Sample64.

(** The thin triangle is not collinear within the tolerance; it is built. *)
Lemma thin_constructed :
  Triangle_init (are_collinear_tol tolerance) thin_a thin_b thin_c = Ok thin.
Proof. vm_compute. reflexivity. Qed.




(** C9, refuted as stated. The triangle (0, 0), (2^664, 2^664),
    (2^664, 2^665) is accepted by construction and its area is NaN, which
    is not greater than zero; and the triangle (0, 0), (2^-333, 0),
    (0, 2^-333), which is not collinear and is accepted under the test of
    tolerance zero, has a normal with third coordinate 2^-666 and area
    0.0. *)
Lemma huge_area_not_positive :
  (Triangle_init (are_collinear_tol tolerance) huge_a huge_b huge_c = Ok huge /\
   (dimension huge <= 3)%nat /\
   exists s, area huge = Ok s /\ is_nan s = true /\ ltb 0%float s = false) /\
  (Triangle_init (are_collinear_tol 0%float) tiny_a tiny_b tiny_c = Ok tiny /\
   (dimension tiny <= 3)%nat /\
   normal tiny = Ok [0; 0; 0x1p-666]%float /\
   area tiny = Ok 0%float /\ ltb 0%float 0%float = false).
Proof.
  split.
  - split; [vm_compute; reflexivity |]. split; [simpl; lia |].
    eexists. vm_compute. repeat split; reflexivity.
  - split; [vm_compute; reflexivity |]. split; [simpl; lia |].
    vm_compute. repeat split; reflexivity.
Qed.

(** C10, refuted as stated. The triangle (0, 0), (2^-565, 0), (0, 2^548)
    is accepted by construction, its vertices are pairwise distinct, and
    its side length 'c' is 0.0, the square of 2^-565 being below the
    smallest positive binary64 number; and the triangle (0, 0),
    (2^-540, 0), (0, 1), accepted under the test of tolerance zero, has
    the side lengths 1, 1 and 0.0, so that the denominators [2*b*c] and
    [2*a*c] of [angle] are zero. *)
Lemma sliver_side_length_zero :
  (Triangle_init (are_collinear_tol tolerance) sliver_a sliver_b sliver_c
     = Ok sliver /\
   vec_eqb (point_a sliver) (point_b sliver) = false /\
   exists a b c,
     side_lengths sliver = Ok (a, b, c) /\ side_length sliver "c" = Ok c /\
     c = 0%float /\ ltb 0%float c = false) /\
  (Triangle_init (are_collinear_tol 0%float) flat_a flat_b flat_c = Ok flat /\
   side_lengths flat = Ok (1, 1, 0)%float /\
   fmul (fmul f2 1%float) 0%float = 0%float /\
   eqb (fmul (fmul f2 1%float) 0%float) 0%float = true).
Proof.
  split.
  - split; [vm_compute; reflexivity |]. split; [vm_compute; reflexivity |].
    do 3 eexists. vm_compute. repeat split; reflexivity.
  - vm_compute. repeat split; reflexivity.
Qed.

(** The code of [is_right] and [classify] below their first line gives the
    answers of the docstrings on the side lengths. *)
Lemma is_right_of_lengths_docstring :
  is_right_of_lengths (side_values right_010_100) default_tolerances = Ok true /\
  is_right_of_lengths (side_values acute_12_20) default_tolerances = Ok false.
Proof. vm_compute. split; reflexivity. Qed.

Lemma classify_of_lengths_docstring :
  classify_of_lengths (side_values isosceles_10_11) default_tolerances
    = Ok "isosceles" /\
  classify_of_lengths (side_values scalene_10_02) default_tolerances
    = Ok "scalene".
Proof. vm_compute. split; reflexivity. Qed.

(** Exactly two close pairs fall through to 'scalene'. *)
Lemma classify_of_lengths_two_pairs :
  mapM (isclose_values half_abs_tol) (combinations2 stepped_lengths)
    = Ok [true; false; true] /\
  classify_of_lengths stepped_lengths half_abs_tol = Ok "scalene".
Proof. vm_compute. split; reflexivity. Qed.

End Float64.

(** ** Exact arithmetic: comparisons and vectors over the reals *)

Section RealVectors.

Local Open Scope R_scope.

Lemma Reqb_true (x y : R) : x = y -> Reqb x y = true.
Proof. intros E. unfold Reqb. destruct (Req_dec_T x y); [reflexivity | contradiction]. Qed.

Lemma Reqb_false (x y : R) : x <> y -> Reqb x y = false.
Proof. intros E. unfold Reqb. destruct (Req_dec_T x y); [contradiction | reflexivity]. Qed.

Lemma Rleb_true (x y : R) : x <= y -> Rleb x y = true.
Proof. intros E. unfold Rleb. destruct (Rle_dec x y); [reflexivity | contradiction]. Qed.

Lemma Rleb_false (x y : R) : y < x -> Rleb x y = false.
Proof. intros E. unfold Rleb. destruct (Rle_dec x y); [lra | reflexivity]. Qed.

Lemma Rltb_true (x y : R) : x < y -> Rltb x y = true.
Proof. intros E. unfold Rltb. destruct (Rlt_dec x y); [reflexivity | contradiction]. Qed.

Lemma Rltb_false (x y : R) : y <= x -> Rltb x y = false.
Proof. intros E. unfold Rltb. destruct (Rlt_dec x y); [lra | reflexivity]. Qed.

Lemma dot_cons (x y : R) (u v : list R) :
  dot (x :: u) (y :: v) = x * y + dot u v.
Proof. reflexivity. Qed.

Lemma dot_self_nonneg (w : list R) : 0 <= dot w w.
Proof.
  induction w as [| x w IH].
  - unfold dot. simpl. lra.
  - rewrite dot_cons. nra.
Qed.

Lemma dot_self_zero (w : list R) :
  dot w w = 0 -> Forall (fun x => x = 0) w.
Proof.
  induction w as [| x w IH]; intros E.
  - constructor.
  - rewrite dot_cons in E. pose proof (dot_self_nonneg w) as P.
    constructor; [nra |]. apply IH. nra.
Qed.

Lemma from_points_zero (a b : list R) :
  length a = length b -> Forall (fun x => x = 0) (from_points a b) -> a = b.
Proof.
  revert b. induction a as [| x a IH]; intros [| y b] L Z;
    try discriminate; [reflexivity |].
  unfold from_points in Z. simpl in Z. inversion Z as [| ? ? Z0 Z1]; subst.
  simpl in Z0. f_equal; [lra |].
  apply IH; [now injection L | exact Z1].
Qed.

(** Two distinct points of one dimension are at a positive distance. *)
Lemma distance_point_pos (a b : list R) :
  length a = length b -> a <> b -> 0 < distance_point a b.
Proof.
  intros L N. unfold distance_point, norm. simpl.
  apply sqrt_lt_R0.
  pose proof (dot_self_nonneg (from_points a b)) as P.
  destruct (Req_dec_T (dot (from_points a b) (from_points a b)) 0) as [Z | NZ];
    [| lra].
  exfalso. apply N. apply from_points_zero; [exact L |].
  now apply dot_self_zero.
Qed.

Lemma dependent_zero_left (a c : list R) :
  length a = length c ->
  Forall2 (fun x y => 1 * x + 0 * y = 0) (from_points a a) (from_points a c).
Proof.
  revert c. induction a as [| x a IH]; intros [| y c] L; try discriminate.
  - constructor.
  - unfold from_points. simpl. constructor; [lra |].
    apply IH. now injection L.
Qed.

Lemma dependent_zero_right (a b : list R) :
  length a = length b ->
  Forall2 (fun x y => 0 * x + 1 * y = 0) (from_points a b) (from_points a a).
Proof.
  revert b. induction a as [| x a IH]; intros [| y b] L; try discriminate.
  - constructor.
  - unfold from_points. simpl. constructor; [lra |].
    apply IH. now injection L.
Qed.

Lemma dependent_same (u : list R) :
  Forall2 (fun x y => 1 * x + -1 * y = 0) u u.
Proof.
  induction u as [| x u IH]; constructor; [lra | exact IH].
Qed.

(** Coincident vertices are collinear. *)
Lemma coincident_collinear (a b c : list R) :
  same_dimension a b c -> a = b \/ b = c \/ a = c -> collinear3 a b c.
Proof.
  intros [Lab Lbc] [E | [E | E]]; subst; unfold collinear3, linearly_dependent.
  - exists 1, 0. split; [left; lra |]. now apply dependent_zero_left.
  - exists 1, (-1). split; [left; lra |]. apply dependent_same.
  - exists 0, 1. split; [right; lra |]. now apply dependent_zero_right.
Qed.

Lemma sum_squares_zero (x y z : R) :
  x * x + (y * y + (z * z + 0)) = 0 -> x = 0 /\ y = 0 /\ z = 0.
Proof. intros E. repeat split; nra. Qed.

(** In 3D a vanishing cross product makes the two vectors dependent. *)
Lemma cross3_zero_dependent (u0 u1 u2 v0 v1 v2 : R) :
  u1 * v2 - u2 * v1 = 0 -> u2 * v0 - u0 * v2 = 0 -> u0 * v1 - u1 * v0 = 0 ->
  exists s t, (s <> 0 \/ t <> 0) /\
    s * u0 + t * v0 = 0 /\ s * u1 + t * v1 = 0 /\ s * u2 + t * v2 = 0.
Proof.
  intros M0 M1 M2.
  destruct (Req_dec_T u0 0) as [Z0 | N0].
  - destruct (Req_dec_T u1 0) as [Z1 | N1].
    + destruct (Req_dec_T u2 0) as [Z2 | N2].
      * exists 1, 0. subst. split; [left; lra | repeat split; lra].
      * exists v2, (- u2). split; [right; lra | repeat split; nra].
    + exists v1, (- u1). split; [right; lra | repeat split; nra].
  - exists v0, (- u0). split; [right; lra | repeat split; nra].
Qed.

End RealVectors.

(** ** The exact collinearity test *)

Section ExactTest.

Local Open Scope R_scope.

Lemma in_combinations2 {A : Type} (l : list A) (p q : A) :
  In (p, q) (combinations2 l) -> In p l /\ In q l.
Proof.
  induction l as [| x l IH]; simpl; [tauto |].
  rewrite in_app_iff, in_map_iff.
  intros [[y [E I]] | I].
  - injection E as <- <-. auto.
  - destruct (IH I). auto.
Qed.

Lemma Forall2_combine (P : R -> R -> Prop) (u v : list R) :
  Forall2 P u v -> forall x y, In (x, y) (combine u v) -> P x y.
Proof.
  induction 1 as [| a b u v Pab _ IH]; simpl; [tauto |].
  intros x y [E | I]; [now injection E as <- <- | now apply IH].
Qed.

Lemma dependent_minor_zero (s t x1 y1 x2 y2 : R) :
  s <> 0 \/ t <> 0 ->
  s * x1 + t * y1 = 0 -> s * x2 + t * y2 = 0 ->
  x1 * y2 - x2 * y1 = 0.
Proof.
  intros N E1 E2.
  assert (Ms : s * (x1 * y2 - x2 * y1) = 0).
  { replace (s * (x1 * y2 - x2 * y1))
      with ((s * x1 + t * y1) * y2 - (s * x2 + t * y2) * y1) by ring.
    rewrite E1, E2. ring. }
  assert (Mt : t * (x1 * y2 - x2 * y1) = 0).
  { replace (t * (x1 * y2 - x2 * y1))
      with (x1 * (s * x2 + t * y2) - x2 * (s * x1 + t * y1)) by ring.
    rewrite E1, E2. ring. }
  destruct N as [N | N].
  - apply Rmult_integral in Ms. tauto.
  - apply Rmult_integral in Mt. tauto.
Qed.

Lemma dependent_is_parallel (u v : list R) :
  linearly_dependent u v -> is_parallel_tol 0 u v = true.
Proof.
  intros [s [t [N D]]]. unfold is_parallel_tol, minors.
  apply forallb_forall. intros m I.
  apply in_map_iff in I. destruct I as [[[x1 y1] [x2 y2]] [<- I]].
  apply in_combinations2 in I. destruct I as [I1 I2]. simpl.
  pose proof (Forall2_combine _ u v D x1 y1 I1) as E1.
  pose proof (Forall2_combine _ u v D x2 y2 I2) as E2.
  simpl in E1, E2.
  rewrite (dependent_minor_zero s t x1 y1 x2 y2 N E1 E2).
  apply Rleb_true. rewrite Rabs_R0. lra.
Qed.

(** The exact test reports every collinear triple. *)
Lemma are_collinear_exact_complete :
  complete_collinearity_test are_collinear_exact.
Proof.
  intros a b c D. unfold are_collinear_exact, are_collinear_tol. simpl.
  rewrite (dependent_is_parallel _ _ D). reflexivity.
Qed.

Lemma triangle_10_01_constructed :
  Triangle_init are_collinear_exact [0; 0] [1; 0] [0; 1] = Ok triangle_10_01.
Proof.
  unfold Triangle_init, are_collinear_exact, are_collinear_tol,
    is_parallel_tol, minors. simpl.
  rewrite Rleb_false; [reflexivity |].
  apply Rabs_pos_lt. lra.
Qed.

Lemma triangle_010_100_constructed :
  Triangle_init are_collinear_exact [0; 0] [0; 1] [1; 0] = Ok triangle_010_100.
Proof.
  unfold Triangle_init, are_collinear_exact, are_collinear_tol,
    is_parallel_tol, minors. simpl.
  rewrite Rleb_false; [reflexivity |].
  apply Rabs_pos_lt. lra.
Qed.

Lemma triangle_12_20_constructed :
  Triangle_init are_collinear_exact [0; 0] [1; 2] [2; 0] = Ok triangle_12_20.
Proof.
  unfold Triangle_init, are_collinear_exact, are_collinear_tol,
    is_parallel_tol, minors. simpl.
  rewrite Rleb_false; [reflexivity |].
  apply Rabs_pos_lt. lra.
Qed.

(** The collinear points of the class docstring are rejected. *)
Lemma collinear_points_rejected :
  Triangle_init are_collinear_exact [0; 0] [0; 1] [0; 2] = Err degeneracy_error.
Proof.
  unfold Triangle_init, are_collinear_exact, are_collinear_tol,
    is_parallel_tol, minors. simpl.
  rewrite Rleb_true; [reflexivity |].
  match goal with |- Rabs ?m <= 0 => replace m with 0 by lra end.
  rewrite Rabs_R0. lra.
Qed.

(** Points of differing dimension are rejected, whatever the test. *)
Lemma mixed_dimensions_rejected (test : list (list R) -> bool) :
  Triangle_init test [0; 0; 0] [1; 0] [0; 1] = Err dimension_error.
Proof. reflexivity. Qed.

End ExactTest.

(** ** The normal in any arithmetic *)

Section CrossProduct.

Context {F : Type} `{Scalar F}.

Variable test : list (list F) -> bool.

Ltac shapes p := destruct p as [| ? [| ? [| ? [| ? ?]]]].

Lemma cross_small (u v : list F) :
  (length u <= 3)%nat -> (length v <= 3)%nat ->
  exists n, cross u v = Ok n /\ length n = 3%nat.
Proof.
  intros Lu Lv. shapes u; shapes v; simpl in Lu, Lv; try lia;
    eexists; split; reflexivity.
Qed.

Lemma from_points_dimension (a b : list F) :
  length a = length b -> length (from_points a b) = length a.
Proof.
  revert b. induction a as [| x a IH]; intros [| y b] L; try discriminate;
    [reflexivity |].
  unfold from_points in *. simpl. f_equal. apply IH. now injection L.
Qed.

Section RingLaws.

Hypothesis ring_laws : ring_theory f0 f1 fadd fmul fsub fopp (@eq F).

Add Ring carrier : ring_laws.

Lemma normal_swaps_ring (pa pb pc : list F) (d : nat) :
  same_dimension pa pb pc -> (length pa <= 3)%nat ->
  exists n, normal (mkTriangle pa pb pc d) = Ok n /\
    (length pa = 2%nat -> exists z, n = [f0; f0; z]) /\
    normal (swap_ab (mkTriangle pa pb pc d)) = Ok (map fopp n) /\
    normal (swap_ac (mkTriangle pa pb pc d)) = Ok (map fopp n) /\
    normal (swap_bc (mkTriangle pa pb pc d)) = Ok (map fopp n).
Proof.
  intros [Lab Lbc] D.
  shapes pa; simpl in D; try lia;
    shapes pb; try discriminate; shapes pc; try discriminate;
    unfold normal, swap_ab, swap_ac, swap_bc, cross, from_points; cbn;
    eexists; (split; [reflexivity |]);
    (split; [intros E; try discriminate; eexists; repeat f_equal; ring |]);
    cbn; repeat split; repeat f_equal; ring.
Qed.

End RingLaws.


End CrossProduct.

(** ** Normal, area and side lengths over the reals *)

Section NormalArea.

Local Open Scope R_scope.

Variable test : list (list R) -> bool.

Ltac shapes p := destruct p as [| ? [| ? [| ? [| ? ?]]]].

Lemma from_points_length (a b : list R) :
  length a = length b -> length (from_points a b) = length a.
Proof.
  revert b. induction a as [| x a IH]; intros [| y b] L; try discriminate;
    [reflexivity |].
  unfold from_points in *. simpl. f_equal. apply IH. now injection L.
Qed.

Lemma cross_total (u v : list R) :
  (length u <= 3)%nat -> (length v <= 3)%nat -> exists n, cross u v = Ok n.
Proof.
  intros Lu Lv. shapes u; shapes v; simpl in Lu, Lv; try lia;
    eexists; reflexivity.
Qed.

Lemma cross_zero_dependent (u v n : list R) :
  length u = length v -> cross u v = Ok n -> dot n n = 0 ->
  linearly_dependent u v.
Proof.
  intros L C Z. unfold linearly_dependent.
  shapes u; shapes v; try discriminate; simpl in C;
    injection C as <-; unfold dot in Z; simpl in Z;
    apply sum_squares_zero in Z; destruct Z as [Z0 [Z1 Z2]];
    match type of Z0 with
    | ?u1 * ?v2 - ?u2 * ?v1 = 0 =>
        match type of Z1 with
        | _ * ?v0 - ?u0 * _ = 0 =>
            destruct (cross3_zero_dependent u0 u1 u2 v0 v1 v2 Z0 Z1 Z2)
              as [s [t [N [E0 [E1 E2]]]]]
        end
    end;
    exists s, t; (split; [exact N |]); repeat constructor; assumption.
Qed.

Lemma denominator_nonzero (x y : R) : 0 < x -> 0 < y -> 2 * x * y <> 0.
Proof.
  intros X Y. pose proof (Rmult_lt_0_compat x y X Y). lra.
Qed.

(** C9, as the code has it. In every arithmetic, the area is half the
    Euclidean norm of the normal. In exact arithmetic, over the reals, the
    area of a constructed triangle of dimension at most 3 is strictly
    positive, provided the collinearity test of the constructor reports
    every collinear triple; in binary64 it need not be. *)
Theorem area_half_norm_positive (pa pb pc : list R) (t : Triangle) :
  complete_collinearity_test test ->
  Triangle_init test pa pb pc = Ok t -> (dimension t <= 3)%nat ->
  (forall (F : Type) (SF : Scalar F) (q : @Triangle F) (m : list F),
     normal q = Ok m -> area q = Ok (fmul fhalf (fsqrt (dot m m)))) /\
  exists n, normal t = Ok n /\
    area t = Ok (/ 2 * norm n) /\
    norm n = sqrt (dot n n) /\
    0 < / 2 * norm n.
Proof.
  intros T I D. split.
  { intros F SF q m N. unfold area. rewrite N. reflexivity. }
  apply Triangle_init_inv in I.
  destruct I as [[Lab Lbc] [C ->]]. simpl in D.
  assert (Lu : length (from_points pa pb) = length pa)
    by now apply from_points_length.
  assert (Lv : length (from_points pa pc) = length pa)
    by (apply from_points_length; congruence).
  destruct (cross_total (from_points pa pb) (from_points pa pc)) as [n N];
    [lia | lia |].
  exists n. unfold area, normal. simpl. rewrite N. simpl.
  split; [reflexivity |]. split; [reflexivity |]. split; [reflexivity |].
  assert (P : 0 < dot n n).
  { pose proof (dot_self_nonneg n) as P.
    destruct (Req_dec_T (dot n n) 0) as [Z | NZ]; [| lra].
    exfalso.
    assert (Dep : collinear3 pa pb pc).
    { apply (cross_zero_dependent _ _ n); [congruence | exact N | exact Z]. }
    apply T in Dep. congruence. }
  apply sqrt_lt_R0 in P. unfold norm. simpl. lra.
Qed.

(** The three vertices of a constructed triangle are pairwise distinct and
    at positive distances from one another. *)
Lemma constructed_distances_pos (pa pb pc : list R) (t : Triangle) :
  complete_collinearity_test test ->
  Triangle_init test pa pb pc = Ok t ->
  (pa <> pb /\ pb <> pc /\ pa <> pc) /\
  0 < distance_point pb pc /\ 0 < distance_point pa pc /\
  0 < distance_point pa pb.
Proof.
  intros T I. apply Triangle_init_inv in I. destruct I as [S [C _]].
  assert (N : pa <> pb /\ pb <> pc /\ pa <> pc).
  { repeat split; intros E;
      pose proof (T pa pb pc (coincident_collinear pa pb pc S
                                ltac:(auto))) as X; congruence. }
  destruct S as [Lab Lbc]. destruct N as [Nab [Nbc Nac]].
  split; [auto |].
  split; [now apply distance_point_pos |].
  split; apply distance_point_pos; congruence.
Qed.

(** C10, as the code has it. In exact arithmetic, over the reals, a
    constructed triangle has three strictly positive side lengths: no two
    vertices coincide, and the denominators [2*b*c], [2*a*c], [2*a*b] of
    [angle] are non-zero, provided the collinearity test of the constructor
    reports every collinear triple. In binary64 a side length of a
    constructed triangle can be 0.0. *)
Theorem side_lengths_positive (pa pb pc : list R) (t : Triangle) :
  complete_collinearity_test test ->
  Triangle_init test pa pb pc = Ok t ->
  (point_a t <> point_b t /\ point_b t <> point_c t /\ point_a t <> point_c t) /\
  exists a b c,
    side_length t "a" = Ok a /\ side_length t "b" = Ok b /\
    side_length t "c" = Ok c /\
    side_lengths t = Ok (a, b, c) /\
    0 < a /\ 0 < b /\ 0 < c /\
    fmul (fmul f2 b) c <> 0 /\ fmul (fmul f2 a) c <> 0 /\
    fmul (fmul f2 a) b <> 0.
Proof.
  intros T I.
  destruct (constructed_distances_pos pa pb pc t T I) as [N [Pa [Pb Pc]]].
  apply Triangle_init_inv in I. destruct I as [_ [_ ->]]. simpl.
  split; [exact N |].
  do 3 eexists. unfold side_lengths, side_length. simpl.
  repeat (split; [reflexivity |]).
  repeat (split; [assumption |]).
  repeat split; now apply denominator_nonzero.
Qed.

End NormalArea.

(** ** Altitudes and the orthocenter over the reals *)

Section Altitudes.

Local Open Scope R_scope.

Variable test : list (list R) -> bool.
Hypothesis test_complete : complete_collinearity_test test.

Lemma Reqb_eq (x y : R) : Reqb x y = true -> x = y.
Proof. unfold Reqb. destruct (Req_dec_T x y); [trivial | discriminate]. Qed.

Lemma is_zero_Forall (v : list R) :
  is_zero v = true -> Forall (fun x => x = 0) v.
Proof.
  unfold is_zero. rewrite forallb_forall, Forall_forall.
  intros Z x I. apply Reqb_eq. now apply Z.
Qed.

Lemma zip_with_length (f : R -> R -> R) (u v : list R) :
  length u = length v -> length (zip_with f u v) = length u.
Proof.
  revert v. induction u as [| x u IH]; intros [| y v] L; try discriminate;
    [reflexivity |].
  simpl. f_equal. apply IH. now injection L.
Qed.

Lemma Line_from_points_ok (a b : list R) :
  length a = length b -> a <> b ->
  Line_from_points a b = Ok (mkLine a (from_points a b)).
Proof.
  intros L N. unfold Line_from_points, Line_init.
  destruct (is_zero (from_points a b)) eqn:Z; [| reflexivity].
  exfalso. apply N. apply from_points_zero; [exact L |].
  now apply is_zero_Forall.
Qed.

(** A point on the line through [b] and [c] is collinear with them. *)
Lemma on_line_bc (k : R) (b c : list R) :
  length b = length c ->
  let a := vadd b (vscale k (from_points b c)) in
  Forall2 (fun x y => (1 - k) * x + k * y = 0)
          (from_points a b) (from_points a c).
Proof.
  revert c. induction b as [| x b IH]; intros [| y c] L; try discriminate.
  - constructor.
  - simpl. unfold from_points, vadd, vscale in *. simpl.
    constructor; [ring |]. apply IH. now injection L.
Qed.

Lemma on_line_ca (k : R) (a c : list R) :
  length a = length c ->
  let b := vadd c (vscale k (from_points c a)) in
  Forall2 (fun x y => 1 * x + - (1 - k) * y = 0)
          (from_points a b) (from_points a c).
Proof.
  revert c. induction a as [| x a IH]; intros [| y c] L; try discriminate.
  - constructor.
  - simpl. unfold from_points, vadd, vscale in *. simpl.
    constructor; [ring |]. apply IH. now injection L.
Qed.

Lemma on_line_ab (k : R) (a b : list R) :
  length a = length b ->
  let c := vadd a (vscale k (from_points a b)) in
  Forall2 (fun x y => k * x + -1 * y = 0)
          (from_points a b) (from_points a c).
Proof.
  revert b. induction a as [| x a IH]; intros [| y b] L; try discriminate.
  - constructor.
  - simpl. unfold from_points, vadd, vscale in *. simpl.
    constructor; [ring |]. apply IH. now injection L.
Qed.

Lemma project_point_length (p d q : list R) :
  length p = length d ->
  length (project_point (mkLine p d) q) = length p.
Proof.
  intros L. unfold project_point, vadd, vscale. simpl.
  apply zip_with_length. now rewrite length_map.
Qed.

(** The foot of an altitude is not the vertex it is dropped from. *)
Lemma foot_a_distinct (pa pb pc : list R) :
  same_dimension pa pb pc -> test [pa; pb; pc] = false ->
  pa <> project_point (mkLine pb (from_points pb pc)) pa.
Proof.
  intros [Lab Lbc] C E. unfold project_point in E. simpl in E.
  set (k := dot _ _ / dot _ _) in E.
  assert (D : collinear3 pa pb pc).
  { exists (1 - k), k. split.
    - destruct (Req_dec_T k 0) as [Z | N]; [left; lra | now right].
    - rewrite E at 1 2. now apply on_line_bc. }
  apply test_complete in D. congruence.
Qed.

Lemma foot_b_distinct (pa pb pc : list R) :
  same_dimension pa pb pc -> test [pa; pb; pc] = false ->
  pb <> project_point (mkLine pc (from_points pc pa)) pb.
Proof.
  intros [Lab Lbc] C E. unfold project_point in E. simpl in E.
  set (k := dot _ _ / dot _ _) in E.
  assert (D : collinear3 pa pb pc).
  { exists 1, (- (1 - k)). split; [left; lra |].
    unfold collinear3. rewrite E at 1. apply on_line_ca. congruence. }
  apply test_complete in D. congruence.
Qed.

Lemma foot_c_distinct (pa pb pc : list R) :
  same_dimension pa pb pc -> test [pa; pb; pc] = false ->
  pc <> project_point (mkLine pa (from_points pa pb)) pc.
Proof.
  intros [Lab Lbc] C E. unfold project_point in E. simpl in E.
  set (k := dot _ _ / dot _ _) in E.
  assert (D : collinear3 pa pb pc).
  { exists k, (-1). split; [right; lra |].
    unfold collinear3. rewrite E at 1. now apply on_line_ab. }
  apply test_complete in D. congruence.
Qed.

End Altitudes.

Section Orthocenter.

Local Open Scope R_scope.

Variable test : list (list R) -> bool.
Hypothesis test_complete : complete_collinearity_test test.

Ltac decide_real :=
  repeat match goal with
  | |- context [Reqb ?x ?y] =>
      first [ rewrite (Reqb_true x y) by lra
            | rewrite (Reqb_false x y) by lra ]
  end.

Lemma constructed_distinct (pa pb pc : list R) :
  same_dimension pa pb pc -> test [pa; pb; pc] = false ->
  pa <> pb /\ pb <> pc /\ pc <> pa.
Proof.
  intros S C. repeat split; intros E;
    pose proof (test_complete pa pb pc
                  (coincident_collinear pa pb pc S ltac:(auto))) as X;
    congruence.
Qed.

(** The three edge lines of a constructed triangle exist. *)
Lemma lines_constructed (pa pb pc : list R) (t : Triangle) :
  Triangle_init test pa pb pc = Ok t ->
  lines t = Ok (mkLine pa (from_points pa pb),
                mkLine pb (from_points pb pc),
                mkLine pc (from_points pc pa)).
Proof.
  intros I. apply Triangle_init_inv in I. destruct I as [S [C ->]].
  destruct (constructed_distinct pa pb pc S C) as [Nab [Nbc Nca]].
  destruct S as [Lab Lbc]. unfold lines. simpl.
  rewrite !Line_from_points_ok by congruence. reflexivity.
Qed.

(** For a constructed triangle and a label among 'A', 'B', 'C', [altitude]
    returns the line from the vertex to its projection on the opposite
    side. *)
Lemma altitude_constructed (pa pb pc : list R) (t : Triangle) :
  Triangle_init test pa pb pc = Ok t ->
  altitude t "A" =
    Ok (mkLine pa (from_points pa
          (project_point (mkLine pb (from_points pb pc)) pa))) /\
  altitude t "B" =
    Ok (mkLine pb (from_points pb
          (project_point (mkLine pc (from_points pc pa)) pb))) /\
  altitude t "C" =
    Ok (mkLine pc (from_points pc
          (project_point (mkLine pa (from_points pa pb)) pc))).
Proof.
  intros I. pose proof (lines_constructed pa pb pc t I) as L.
  apply Triangle_init_inv in I. destruct I as [S [C ->]].
  pose proof (foot_a_distinct test test_complete pa pb pc S C) as Fa.
  pose proof (foot_b_distinct test test_complete pa pb pc S C) as Fb.
  pose proof (foot_c_distinct test test_complete pa pb pc S C) as Fc.
  destruct S as [Lab Lbc].
  assert (La : length pa
               = length (project_point (mkLine pb (from_points pb pc)) pa)).
  { rewrite project_point_length; [congruence |].
    now rewrite from_points_length. }
  assert (Lb : length pb
               = length (project_point (mkLine pc (from_points pc pa)) pb)).
  { rewrite project_point_length; [congruence |].
    rewrite from_points_length; congruence. }
  assert (Lc : length pc
               = length (project_point (mkLine pa (from_points pa pb)) pc)).
  { rewrite project_point_length; [congruence |].
    now rewrite from_points_length. }
  unfold altitude. rewrite L. simpl.
  rewrite !Line_from_points_ok by assumption. auto.
Qed.

(** Every valid label gets an altitude, every other label the
    invalid-argument error. *)
Lemma altitude_label_constructed (pa pb pc : list R) (t : Triangle)
    (vertex : string) :
  Triangle_init test pa pb pc = Ok t ->
  (In vertex vertex_labels -> exists l, altitude t vertex = Ok l) /\
  (altitude t vertex = Err invalid_vertex_error <-> ~ In vertex vertex_labels).
Proof.
  intros I. split.
  - destruct (altitude_constructed pa pb pc t I) as [A [B C]].
    unfold vertex_labels. rewrite in_labels3.
    intros [-> | [-> | ->]]; eauto.
  - eapply altitude_label. eapply lines_constructed. exact I.
Qed.

Lemma orthocenter_010_100 : orthocenter triangle_010_100 = Ok [0; 0].
Proof.
  unfold orthocenter, altitude, lines, Line_from_points, Line_init, is_zero,
    triangle_010_100, from_points.
  cbn. decide_real. cbn.
  unfold intersect_line, project_point, from_points, vadd, vscale, dot,
    vec_eqb.
  cbn. decide_real. cbn. decide_real. cbn.
  repeat f_equal; lra.
Qed.

Lemma orthocenter_12_20 : orthocenter triangle_12_20 = Ok [1; / 2].
Proof.
  unfold orthocenter, altitude, lines, Line_from_points, Line_init, is_zero,
    triangle_12_20, from_points.
  cbn. decide_real. cbn.
  unfold intersect_line, project_point, from_points, vadd, vscale, dot,
    vec_eqb.
  cbn. decide_real. cbn. decide_real. cbn.
  repeat f_equal; lra.
Qed.

(** C7. For a constructed triangle the altitudes from A and from B exist,
    each the line from its vertex to the projection of the vertex on the
    opposite side, and [orthocenter] is the intersection of these two lines;
    the orthocenter of (0,0), (0,1), (1,0) is (0,0) and that of (0,0), (1,2),
    (2,0) is (1, 1/2). *)
Theorem orthocenter_intersects_altitudes (pa pb pc : list R) (t : Triangle) :
  Triangle_init test pa pb pc = Ok t ->
  (exists line_alt_a line_alt_b,
     altitude t "A" = Ok line_alt_a /\
     altitude t "B" = Ok line_alt_b /\
     line_alt_a = mkLine pa (from_points pa
                    (project_point (mkLine pb (from_points pb pc)) pa)) /\
     line_alt_b = mkLine pb (from_points pb
                    (project_point (mkLine pc (from_points pc pa)) pb)) /\
     orthocenter t = intersect_line line_alt_a line_alt_b) /\
  orthocenter triangle_010_100 = Ok [0; 0] /\
  orthocenter triangle_12_20 = Ok [1; / 2].
Proof.
  intros I. destruct (altitude_constructed pa pb pc t I) as [A [B _]].
  split; [| split; [exact orthocenter_010_100 | exact orthocenter_12_20]].
  do 2 eexists. split; [exact A |]. split; [exact B |].
  split; [reflexivity |]. split; [reflexivity |].
  unfold orthocenter. rewrite A, B. reflexivity.
Qed.

End Orthocenter.

(** ** The law of cosines over the reals *)

Section LawOfCosines.

Local Open Scope R_scope.

Variable test : list (list R) -> bool.
Hypothesis test_complete : complete_collinearity_test test.

Lemma dot_lincomb (s t : R) (u v : list R) :
  length u = length v ->
  dot (lincomb s t u v) (lincomb s t u v)
  = s * s * dot u u + 2 * s * t * dot u v + t * t * dot v v.
Proof.
  revert v. induction u as [| x u IH]; intros [| y v] L; try discriminate.
  - unfold dot. simpl. ring.
  - unfold lincomb, vadd, vscale in *. simpl. rewrite !dot_cons.
    rewrite IH by (now injection L). ring.
Qed.

Lemma lincomb_zero (s t : R) (u v : list R) :
  length u = length v ->
  Forall (fun x => x = 0) (lincomb s t u v) ->
  Forall2 (fun x y => s * x + t * y = 0) u v.
Proof.
  revert v. induction u as [| x u IH]; intros [| y v] L Z; try discriminate.
  - constructor.
  - unfold lincomb, vadd, vscale in *. simpl in Z.
    inversion Z as [| ? ? Z0 Z1]; subst.
    constructor; [exact Z0 |]. apply IH; [now injection L | exact Z1].
Qed.

Lemma zero_dependent (u v : list R) :
  length u = length v -> Forall (fun x => x = 0) u ->
  Forall2 (fun x y => 1 * x + 0 * y = 0) u v.
Proof.
  revert v. induction u as [| x u IH]; intros [| y v] L Z; try discriminate.
  - constructor.
  - inversion Z; subst. constructor; [lra |].
    apply IH; [now injection L | assumption].
Qed.

(** The Cauchy-Schwarz inequality is strict for independent vectors. *)
Lemma cauchy_schwarz_strict (u v : list R) :
  length u = length v -> ~ linearly_dependent u v ->
  dot u v * dot u v < dot u u * dot v v.
Proof.
  intros L N.
  destruct (Rlt_dec (dot u v * dot u v) (dot u u * dot v v)) as [Lt | Ge];
    [exact Lt | exfalso; apply N].
  pose proof (dot_self_nonneg u) as Pu.
  destruct (Req_dec_T (dot u u) 0) as [Z | NZ].
  - exists 1, 0. split; [left; lra |].
    apply zero_dependent; [exact L | now apply dot_self_zero].
  - exists (- dot u v), (dot u u). split; [now right |].
    apply lincomb_zero; [exact L |]. apply dot_self_zero.
    pose proof (dot_self_nonneg (lincomb (- dot u v) (dot u u) u v)) as Pw.
    rewrite dot_lincomb in * by exact L.
    nra.
Qed.

Lemma from_points_cons (x y : R) (a b : list R) :
  from_points (x :: a) (y :: b) = (y - x) :: from_points a b.
Proof. reflexivity. Qed.

(** [|c - b|^2 = |b - a|^2 + |c - a|^2 - 2 (b - a).(c - a)] *)
Lemma dot_from_points (a b c : list R) :
  length a = length b -> length b = length c ->
  dot (from_points b c) (from_points b c)
  = dot (from_points a b) (from_points a b)
    + dot (from_points a c) (from_points a c)
    - 2 * dot (from_points a b) (from_points a c).
Proof.
  revert b c. induction a as [| x a IH]; intros [| y b] [| z c] Lab Lbc;
    try discriminate.
  - unfold dot. simpl. ring.
  - rewrite !from_points_cons, !dot_cons.
    rewrite (IH b c) by (simpl in *; congruence). ring.
Qed.

Lemma quotient_bounds (n d : R) :
  0 < d -> - d < n < d -> -1 < n / d < 1.
Proof.
  intros D [Lo Hi].
  split; apply Rmult_lt_reg_r with d; try exact D;
    replace (n / d * d) with n by (field; lra); lra.
Qed.

Lemma cosine_bounds (p q r a b c : R) :
  0 < a -> 0 < b -> 0 < c ->
  c * c = p -> b * b = q -> a * a = p + q - 2 * r ->
  r * r < p * q ->
  -1 < (b * b + c * c - a * a) / (2 * b * c) < 1 /\
  -1 < (a * a + c * c - b * b) / (2 * a * c) < 1 /\
  -1 < (a * a + b * b - c * c) / (2 * a * b) < 1.
Proof.
  intros Pa Pb Pc Ec Eb Ea CS.
  assert (Pbc : 0 < b * c) by nra.
  assert (Pac : 0 < a * c) by nra.
  assert (Pab : 0 < a * b) by nra.
  repeat split; apply quotient_bounds; try lra.
  all: nra.
Qed.

Lemma distance_point_sqr (a b : list R) :
  distance_point a b * distance_point a b
  = dot (from_points a b) (from_points a b).
Proof.
  unfold distance_point, norm. simpl. apply sqrt_sqrt, dot_self_nonneg.
Qed.

Lemma math_acos_real (x : R) :
  -1 < x < 1 -> math_acos x = Ok (acos x) /\ 0 < acos x < PI.
Proof.
  intros [Lo Hi]. split; [| apply acos_bound_lt; lra].
  unfold math_acos, acos_domain. simpl.
  rewrite !Rleb_true by lra. reflexivity.
Qed.

(** In exact arithmetic the quotients of a constructed triangle lie strictly
    between -1 and 1. *)
Lemma cosine_arguments_constructed (pa pb pc : list R) (t : Triangle) :
  Triangle_init test pa pb pc = Ok t ->
  let a := distance_point pb pc in
  let b := distance_point pa pc in
  let c := distance_point pa pb in
  -1 < (b * b + c * c - a * a) / (2 * b * c) < 1 /\
  -1 < (a * a + c * c - b * b) / (2 * a * c) < 1 /\
  -1 < (a * a + b * b - c * c) / (2 * a * b) < 1.
Proof.
  intros I a b c.
  destruct (constructed_distances_pos test pa pb pc t test_complete I)
    as [_ [Pa [Pb Pc]]].
  apply Triangle_init_inv in I. destruct I as [[Lab Lbc] [C ->]].
  apply (cosine_bounds (dot (from_points pa pb) (from_points pa pb))
                       (dot (from_points pa pc) (from_points pa pc))
                       (dot (from_points pa pb) (from_points pa pc)));
    try assumption; try apply distance_point_sqr.
  - unfold a. rewrite distance_point_sqr. now apply dot_from_points.
  - apply cauchy_schwarz_strict.
    + rewrite !from_points_length; congruence.
    + intros D. apply test_complete in D. congruence.
Qed.

(** What the claim C1 describes holds of the code of [angle] below its first
    line: from the side lengths of a constructed triangle it returns the arc
    cosine of the law-of-cosines quotient, strictly between 0 and pi. *)
Lemma angle_of_lengths_constructed (pa pb pc : list R) (t : Triangle) :
  Triangle_init test pa pb pc = Ok t ->
  let a := distance_point pb pc in
  let b := distance_point pa pc in
  let c := distance_point pa pb in
  side_values t = [VFloat a; VFloat b; VFloat c] /\
  angle_of_lengths (side_values t) "A"
    = Ok (acos ((b * b + c * c - a * a) / (2 * b * c))) /\
  angle_of_lengths (side_values t) "B"
    = Ok (acos ((a * a + c * c - b * b) / (2 * a * c))) /\
  angle_of_lengths (side_values t) "C"
    = Ok (acos ((a * a + b * b - c * c) / (2 * a * b))) /\
  (forall vertex x, angle_of_lengths (side_values t) vertex = Ok x ->
     0 < x < PI).
Proof.
  intros I a b c.
  destruct (cosine_arguments_constructed pa pb pc t I) as [BA [BB BC]].
  fold a b c in BA, BB, BC.
  apply Triangle_init_inv in I. destruct I as [_ [_ ->]].
  destruct (math_acos_real _ BA) as [EA RA].
  destruct (math_acos_real _ BB) as [EB RB].
  destruct (math_acos_real _ BC) as [EC RC].
  assert (A : angle_of_lengths [VFloat a; VFloat b; VFloat c] "A"
              = Ok (acos ((b * b + c * c - a * a) / (2 * b * c))))
    by exact EA.
  assert (B : angle_of_lengths [VFloat a; VFloat b; VFloat c] "B"
              = Ok (acos ((a * a + c * c - b * b) / (2 * a * c))))
    by exact EB.
  assert (C : angle_of_lengths [VFloat a; VFloat b; VFloat c] "C"
              = Ok (acos ((a * a + b * b - c * c) / (2 * a * b))))
    by exact EC.
  unfold side_values. simpl point_a. simpl point_b. simpl point_c.
  fold a b c.
  split; [reflexivity |]. split; [exact A |]. split; [exact B |].
  split; [exact C |].
  intros vertex x E.
  unfold angle_of_lengths in E, A, B, C. simpl in E, A, B, C.
  unfold angle_arg in E, A, B, C.
  destruct (String.eqb_spec vertex "A") as [-> | NA].
  { simpl in E, A. rewrite A in E. injection E as <-. exact RA. }
  destruct (String.eqb_spec vertex "B") as [-> | NB].
  { simpl in E, B. rewrite B in E. injection E as <-. exact RB. }
  destruct (String.eqb_spec vertex "C") as [-> | NC].
  { simpl in E, C. rewrite C in E. injection E as <-. exact RC. }
  discriminate.
Qed.

End LawOfCosines.

(** ** Instances at the sample triangles *)

Section Instances.

Local Open Scope R_scope.

Lemma orthocenter_intersects_altitudes_at_12_20 :
  complete_collinearity_test are_collinear_exact /\
  Triangle_init are_collinear_exact [0; 0] [1; 2] [2; 0] = Ok triangle_12_20 /\
  exists line_alt_a line_alt_b,
    altitude triangle_12_20 "A" = Ok line_alt_a /\
    altitude triangle_12_20 "B" = Ok line_alt_b /\
    orthocenter triangle_12_20 = intersect_line line_alt_a line_alt_b.
Proof.
  split; [exact are_collinear_exact_complete |].
  split; [exact triangle_12_20_constructed |].
  destruct (orthocenter_intersects_altitudes are_collinear_exact
              are_collinear_exact_complete [0; 0] [1; 2] [2; 0]
              triangle_12_20 triangle_12_20_constructed)
    as [[la [lb [A [B [_ [_ E]]]]]] _].
  exists la, lb. auto.
Defined.


Lemma area_half_norm_positive_at_10_01 :
  complete_collinearity_test are_collinear_exact /\
  Triangle_init are_collinear_exact [0; 0] [1; 0] [0; 1] = Ok triangle_10_01 /\
  (dimension triangle_10_01 <= 3)%nat /\
  exists n,
    normal triangle_10_01 = Ok n /\
    area triangle_10_01 = Ok (/ 2 * norm n) /\
    0 < / 2 * norm n.
Proof.
  assert (D : (dimension triangle_10_01 <= 3)%nat) by (simpl; lia).
  split; [exact are_collinear_exact_complete |].
  split; [exact triangle_10_01_constructed |]. split; [exact D |].
  destruct (area_half_norm_positive are_collinear_exact
              [0; 0] [1; 0] [0; 1] triangle_10_01
              are_collinear_exact_complete triangle_10_01_constructed D)
    as [_ [n [N [A [_ P]]]]].
  exists n. auto.
Defined.

Lemma side_lengths_positive_at_10_01 :
  complete_collinearity_test are_collinear_exact /\
  Triangle_init are_collinear_exact [0; 0] [1; 0] [0; 1] = Ok triangle_10_01 /\
  exists a b c,
    side_lengths triangle_10_01 = Ok (a, b, c) /\
    0 < a /\ 0 < b /\ 0 < c.
Proof.
  split; [exact are_collinear_exact_complete |].
  split; [exact triangle_10_01_constructed |].
  destruct (side_lengths_positive are_collinear_exact
              [0; 0] [1; 0] [0; 1] triangle_10_01
              are_collinear_exact_complete triangle_10_01_constructed)
    as [_ [a [b [c [_ [_ [_ [S [Pa [Pb [Pc _]]]]]]]]]]].
  exists a, b, c. auto.
Defined.

End Instances.

(** * Further properties of the class *)

(** ** [multiple] *)

Section Multiple.

Context {F : Type} `{Scalar F} `{Trig F}.

Lemma lookup_not_in (name : string) (table : list (string * attribute)) :
  ~ In name (map fst table) -> lookup name table = None.
Proof.
  induction table as [| [k v] table IH]; simpl; [reflexivity |].
  intros N. destruct (String.eqb_spec name k) as [-> | _]; [tauto |].
  apply IH. tauto.
Qed.

Lemma lookup_in (name : string) (table : list (string * attribute)) :
  In name (map fst table) -> exists m, lookup name table = Some m.
Proof.
  induction table as [| [k v] table IH]; simpl; [tauto |].
  intros [E | I].
  - subst. rewrite String.eqb_refl. eauto.
  - destruct (name =? k); eauto.
Qed.

Lemma object_attributes_dunder (name : string) :
  In name object_attributes -> String.prefix "__" name = true.
Proof.
  unfold object_attributes. simpl.
  intros I. repeat (destruct I as [<- | I]; [reflexivity |]). contradiction.
Qed.

Lemma not_object_attribute (name : string) :
  String.prefix "__" name = false ->
  existsb (String.eqb name) object_attributes = false.
Proof.
  intros P. destruct (existsb _ object_attributes) eqn:E; [| reflexivity].
  apply existsb_exists in E. destruct E as [x [I Q]].
  apply String.eqb_eq in Q. subst x.
  apply object_attributes_dunder in I. congruence.
Qed.

(** X1. [multiple] looks the method up before it touches the inputs: a name
    without leading double underscore that the class does not define and
    [__init__] does not store raises AttributeError carrying that name, for
    all inputs, the empty one included. *)
Theorem multiple_unknown_name (t : Triangle) (name_method inputs : string) :
  String.prefix "__" name_method = false ->
  ~ In name_method attribute_names ->
  multiple t name_method inputs = Err (AttributeError name_method).
Proof.
  intros P N. unfold multiple, multiple_with, getattr.
  rewrite (lookup_not_in _ _ N), (not_object_attribute _ P). reflexivity.
Qed.

(** X2. With an empty input [multiple] returns the empty list for every
    attribute that exists, be it defined by the class, stored by [__init__]
    or inherited from [object], callable with one argument or not: nothing
    is called. *)
Theorem multiple_empty_inputs (t : Triangle) (name_method : string) :
  In name_method attribute_names \/ In name_method object_attributes ->
  multiple t name_method "" = Ok [].
Proof.
  intros I. unfold multiple, multiple_with, getattr.
  destruct (lookup name_method attributes) as [m |] eqn:L; [reflexivity |].
  destruct I as [I | I].
  - destruct (lookup_in _ _ I) as [m E]. congruence.
  - assert (E : existsb (String.eqb name_method) object_attributes = true).
    { apply existsb_exists. exists name_method. split; [exact I |].
      apply String.eqb_refl. }
    rewrite E. reflexivity.
Qed.

Lemma call_method_side_length (d : nat) (t : Triangle) (x : string) :
  call_method (S d) t M_side_length x = (r <- side_length t x ;; Ok (VFloat r)).
Proof. reflexivity. Qed.

Lemma multiple_side_length_mapM (t : Triangle) (inputs : string) :
  multiple t "side_length" inputs =
  mapM (fun x => r <- side_length t x ;; Ok (VFloat r)) (chars inputs).
Proof.
  unfold multiple, multiple_with, recursion_limit.
  change 1000 with (S 999).
  change (getattr "side_length") with (@Ok attribute M_side_length).
  cbv beta iota delta [bind].
  generalize 999. intros d.
  induction (chars inputs) as [| x l IH]; [reflexivity |].
  cbn [mapM]. rewrite call_method_side_length, IH. reflexivity.
Qed.

Lemma chars_length (s : string) : length (chars s) = String.length s.
Proof. induction s as [| c s IH]; simpl; [reflexivity | now rewrite IH]. Qed.

Lemma side_length_invalid (t : Triangle) (side : string) :
  ~ In side side_labels -> side_length t side = Err invalid_side_error.
Proof. intros N. now apply (side_length_label t side). Qed.

Lemma mapM_side_length (t : Triangle) (l : list string) :
  (Forall (fun x => In x side_labels) l ->
   exists vs,
     mapM (fun x => r <- side_length t x ;; Ok (VFloat r)) l = Ok vs /\
     Forall2 (fun x v => exists r, side_length t x = Ok r /\ v = VFloat r) l vs) /\
  (~ Forall (fun x => In x side_labels) l ->
   mapM (fun x => r <- side_length t x ;; Ok (VFloat r)) l
     = Err invalid_side_error).
Proof.
  induction l as [| x l [IHok IHerr]].
  - split; [intros _; exists []; split; [reflexivity | constructor] |].
    intros N. exfalso. apply N. constructor.
  - split.
    + intros Fa. inversion Fa as [| ? ? Ix Fl]; subst.
      destruct (IHok Fl) as [vs [E F2]].
      destruct (proj2 (side_length_label t x) Ix) as [r Er].
      exists (VFloat r :: vs). simpl. rewrite Er. simpl. rewrite E. simpl.
      split; [reflexivity |]. constructor; [eauto | exact F2].
    + intros N. simpl.
      destruct (in_dec string_dec x side_labels) as [Ix | Nx].
      * destruct (proj2 (side_length_label t x) Ix) as [r Er].
        rewrite Er. simpl. rewrite IHerr; [reflexivity |].
        intros Fl. apply N. now constructor.
      * rewrite (side_length_invalid t x Nx). reflexivity.
Qed.

(** X3. [multiple('side_length', inputs)] returns one length per character
    of the input, in order, when every character is one of 'a', 'b', 'c',
    and raises the invalid-argument error of [side_length] otherwise. *)
Theorem multiple_side_length_each (t : Triangle) (inputs : string) :
  (Forall (fun x => In x side_labels) (chars inputs) ->
   exists vs,
     multiple t "side_length" inputs = Ok vs /\
     length vs = String.length inputs /\
     Forall2 (fun x v => exists r, side_length t x = Ok r /\ v = VFloat r)
             (chars inputs) vs) /\
  (~ Forall (fun x => In x side_labels) (chars inputs) ->
   multiple t "side_length" inputs = Err invalid_side_error).
Proof.
  rewrite multiple_side_length_mapM.
  destruct (mapM_side_length t (chars inputs)) as [Hok Herr].
  split; [| exact Herr].
  intros Fa. destruct (Hok Fa) as [vs [E F2]].
  exists vs. split; [exact E |]. split; [| exact F2].
  rewrite <- chars_length. symmetry. eapply Forall2_length. exact F2.
Qed.

(** X5. Plotting never gets to draw: [plot_2d] and [plot_3d] raise
    AttributeError for the parts 'points' and 'lines', because they ask
    [multiple] for the attributes 'point' and 'line', and return None for
    every other part. *)
Theorem plot_parts (t : Triangle) (part : string) :
  plot_3d t part = plot_2d t part /\
  plot_2d t "points" = Err (AttributeError "point") /\
  plot_2d t "lines" = Err (AttributeError "line") /\
  (part <> "points" -> part <> "lines" -> plot_2d t part = Ok VNone).
Proof.
  split; [reflexivity |]. split; [reflexivity |]. split; [reflexivity |].
  intros Np Nl. unfold plot_2d, plot_with.
  destruct (String.eqb_spec part "points"); [contradiction |].
  destruct (String.eqb_spec part "lines"); [contradiction |].
  reflexivity.
Qed.

End Multiple.

(** ** Edges, side lengths and area *)

Section EdgesAndArea.

Local Open Scope R_scope.

Variable test : list (list R) -> bool.
Hypothesis test_complete : complete_collinearity_test test.

Ltac shapes3 p := destruct p as [| ? [| ? [| ? [| ? ?]]]].

Lemma closed_polygon (a b c : list R) :
  length a = length b -> length b = length c ->
  Forall (fun x => x = 0)
    (vadd (vadd (from_points a b) (from_points b c)) (from_points c a)).
Proof.
  revert b c. induction a as [| x a IH]; intros [| y b] [| z c] Lab Lbc;
    try discriminate.
  - constructor.
  - unfold vadd, from_points in *. simpl. constructor; [ring |].
    apply IH; simpl in *; congruence.
Qed.

(** X6. The three lines of a constructed triangle exist; they start at A,
    B and C, their directions are B - A, C - B and A - C, and the three
    directions add up to the zero vector. *)
Theorem lines_closed_polygon (pa pb pc : list R) (t : Triangle) :
  Triangle_init test pa pb pc = Ok t ->
  exists line_ab line_bc line_ca,
    lines t = Ok (line_ab, line_bc, line_ca) /\
    line_point line_ab = pa /\ line_point line_bc = pb /\
    line_point line_ca = pc /\
    line_direction line_ab = from_points pa pb /\
    line_direction line_bc = from_points pb pc /\
    line_direction line_ca = from_points pc pa /\
    Forall (fun x => x = 0)
      (vadd (vadd (line_direction line_ab) (line_direction line_bc))
            (line_direction line_ca)).
Proof.
  intros I. pose proof (lines_constructed test test_complete pa pb pc t I) as L.
  apply Triangle_init_inv in I. destruct I as [[Lab Lbc] _].
  do 3 eexists. split; [exact L |]. simpl.
  repeat (split; [reflexivity |]).
  now apply closed_polygon.
Qed.

Lemma lower_bound_quotient (n d : R) : 0 < d -> -1 < n / d -> - d < n.
Proof.
  intros D Q. apply Rmult_lt_compat_r with (r := d) in Q; [| exact D].
  replace (n / d * d) with n in Q by (field; lra). lra.
Qed.

(** X7. The side lengths of a constructed triangle satisfy the strict
    triangle inequality: each is smaller than the sum of the other two. *)
Theorem side_lengths_triangle_inequality (pa pb pc : list R) (t : Triangle) :
  Triangle_init test pa pb pc = Ok t ->
  exists a b c,
    side_lengths t = Ok (a, b, c) /\
    a < b + c /\ b < a + c /\ c < a + b.
Proof.
  intros I.
  destruct (constructed_distances_pos test pa pb pc t test_complete I)
    as [_ [Pa [Pb Pc]]].
  destruct (cosine_arguments_constructed test test_complete pa pb pc t I)
    as [[LA _] [[LB _] [LC _]]].
  apply Triangle_init_inv in I. destruct I as [_ [_ ->]].
  set (a := distance_point pb pc) in *.
  set (b := distance_point pa pc) in *.
  set (c := distance_point pa pb) in *.
  exists a, b, c. split; [reflexivity |].
  apply lower_bound_quotient in LA; [| nra].
  apply lower_bound_quotient in LB; [| nra].
  apply lower_bound_quotient in LC; [| nra].
  repeat split; nra.
Qed.

Lemma distance_point_sym (a b : list R) :
  distance_point a b = distance_point b a.
Proof.
  unfold distance_point, norm. simpl. f_equal.
  revert b. induction a as [| x a IH]; intros [| y b]; try reflexivity.
  rewrite !from_points_cons, !dot_cons, IH. ring.
Qed.

(** X8. Exchanging two vertices exchanges the two side lengths named after
    them and keeps the third. *)
Theorem side_lengths_swap (t : @Triangle R) (a b c : R) :
  side_lengths t = Ok (a, b, c) ->
  side_lengths (swap_ab t) = Ok (b, a, c) /\
  side_lengths (swap_ac t) = Ok (c, b, a) /\
  side_lengths (swap_bc t) = Ok (a, c, b).
Proof.
  rewrite !side_lengths_ok. intros E. injection E as <- <- <-.
  unfold swap_ab, swap_ac, swap_bc. cbn [point_a point_b point_c].
  rewrite (distance_point_sym (point_b t) (point_a t)),
          (distance_point_sym (point_c t) (point_a t)),
          (distance_point_sym (point_c t) (point_b t)).
  repeat split; reflexivity.
Qed.

(** X9. In 2D the area is half the absolute value of the determinant of the
    two edge vectors from A. *)
Theorem area_2d_determinant (ax ay bx by_ cx cy : R) (d : nat) :
  area (mkTriangle [ax; ay] [bx; by_] [cx; cy] d)
  = Ok (/ 2 * Rabs ((bx - ax) * (cy - ay) - (by_ - ay) * (cx - ax))).
Proof.
  unfold area, normal, cross, from_points, norm, dot. cbn.
  do 2 f_equal.
  match goal with |- sqrt ?s = Rabs ?m => replace s with (Rsqr m) end.
  - apply sqrt_Rsqr_abs.
  - unfold Rsqr. ring.
Qed.

Lemma norm_opp (n : list R) : norm (map Ropp n) = norm n.
Proof.
  unfold norm. simpl. f_equal.
  induction n as [| x n IH]; [reflexivity |].
  simpl map. rewrite !dot_cons, IH. ring.
Qed.

Lemma normal_swaps (pa pb pc : list R) :
  same_dimension pa pb pc -> (length pa <= 3)%nat ->
  exists n,
    normal (mkTriangle pa pb pc (length pa)) = Ok n /\
    normal (mkTriangle pb pa pc (length pa)) = Ok (map Ropp n) /\
    normal (mkTriangle pc pb pa (length pa)) = Ok (map Ropp n) /\
    normal (mkTriangle pa pc pb (length pa)) = Ok (map Ropp n).
Proof.
  intros [Lab Lbc] D.
  shapes3 pa; simpl in D; try lia;
    shapes3 pb; try discriminate; shapes3 pc; try discriminate;
    unfold normal, cross, from_points; cbn;
    eexists; (split; [reflexivity |]);
    cbn; repeat split; repeat f_equal; ring.
Qed.

(** X10. The area of a constructed triangle of dimension at most 3 does not
    depend on the order of its vertices: exchanging any two of them gives the
    same area. *)
Theorem area_swap (pa pb pc : list R) (t : Triangle) :
  Triangle_init test pa pb pc = Ok t -> (dimension t <= 3)%nat ->
  area (swap_ab t) = area t /\
  area (swap_ac t) = area t /\
  area (swap_bc t) = area t.
Proof.
  intros I D. apply Triangle_init_inv in I. destruct I as [S [_ ->]].
  simpl in D. destruct (normal_swaps pa pb pc S D) as [n [N [Sab [Sac Sbc]]]].
  unfold area, swap_ab, swap_ac, swap_bc.
  cbn [point_a point_b point_c dimension].
  rewrite N, Sab, Sac, Sbc. cbn [bind]. rewrite norm_opp. auto.
Qed.

(** X11. The normal of a 3D triangle is perpendicular to its three edges. *)
Theorem normal_perpendicular_to_edges (pa pb pc : list R) (t : Triangle) :
  Triangle_init test pa pb pc = Ok t -> dimension t = 3%nat ->
  exists n,
    normal t = Ok n /\
    perpendicular n (from_points pa pb) /\
    perpendicular n (from_points pa pc) /\
    perpendicular n (from_points pb pc).
Proof.
  intros I D. apply Triangle_init_inv in I. destruct I as [[Lab Lbc] [_ ->]].
  simpl in D.
  shapes3 pa; try discriminate; shapes3 pb; try discriminate;
    shapes3 pc; try discriminate.
  unfold normal, cross, from_points, perpendicular, dot. cbn.
  eexists. split; [reflexivity |]. cbn. repeat split; ring.
Qed.

End EdgesAndArea.

(** ** Perpendicularity of the altitudes *)

Section Perpendicular.

Local Open Scope R_scope.

Variable test : list (list R) -> bool.
Hypothesis test_complete : complete_collinearity_test test.

Lemma dot_comm (u v : list R) : dot u v = dot v u.
Proof.
  revert v. induction u as [| x u IH]; intros [| y v]; try reflexivity.
  rewrite !dot_cons, IH. ring.
Qed.

Lemma dot_nil_l (w : list R) : dot [] w = 0.
Proof. reflexivity. Qed.

Lemma dot_nil_r (u : list R) : dot u [] = 0.
Proof. destruct u; reflexivity. Qed.

Lemma dot_vscale_l (k : R) (u w : list R) :
  dot (vscale k u) w = k * dot u w.
Proof.
  revert w. induction u as [| x u IH]; intros [| y w].
  - unfold dot. simpl. ring.
  - unfold dot. simpl. ring.
  - unfold vscale. simpl. rewrite !dot_nil_r. ring.
  - unfold vscale in *. simpl. rewrite !dot_cons, IH. ring.
Qed.

Lemma dot_vadd_l (u v w : list R) :
  length u = length v -> dot (vadd u v) w = dot u w + dot v w.
Proof.
  revert v w. induction u as [| x u IH]; intros [| y v] w L; try discriminate.
  - unfold dot. simpl. ring.
  - destruct w as [| z w].
    + unfold vadd. simpl. rewrite !dot_nil_r. ring.
    + unfold vadd in *. simpl. rewrite !dot_cons, IH by (now injection L).
      ring.
Qed.

Lemma dot_from_points_l (a b w : list R) :
  length a = length b -> dot (from_points a b) w = dot b w - dot a w.
Proof.
  revert b w. induction a as [| x a IH]; intros [| y b] w L; try discriminate.
  - unfold dot. simpl. ring.
  - destruct w as [| z w].
    + rewrite !dot_nil_r. ring.
    + rewrite from_points_cons, !dot_cons, IH by (now injection L). ring.
Qed.

Lemma dot_from_points_pos (a b : list R) :
  length a = length b -> a <> b ->
  0 < dot (from_points a b) (from_points a b).
Proof.
  intros L N. pose proof (dot_self_nonneg (from_points a b)) as P.
  destruct (Req_dec_T (dot (from_points a b) (from_points a b)) 0) as [Z | NZ];
    [| lra].
  exfalso. apply N. apply from_points_zero; [exact L |].
  now apply dot_self_zero.
Qed.

(** The vector from a point to its projection on a line is perpendicular
    to the line. *)
Lemma project_point_perpendicular (p0 d p : list R) :
  length p0 = length d -> length d = length p -> dot d d <> 0 ->
  dot (from_points p (project_point (mkLine p0 d) p)) d = 0.
Proof.
  intros L0 L1 NZ. unfold project_point. simpl.
  rewrite dot_from_points_l.
  - rewrite dot_vadd_l by (unfold vscale; now rewrite length_map).
    rewrite dot_vscale_l.
    rewrite (dot_comm d (from_points p0 p)).
    rewrite (dot_from_points_l p0 p d) by congruence.
    field. exact NZ.
  - unfold vadd, vscale. rewrite zip_with_length; [congruence |].
    now rewrite length_map.
Qed.

Lemma altitudes_constructed_perp (pa pb pc : list R) (t : Triangle) :
  Triangle_init test pa pb pc = Ok t ->
  exists la lb lc,
    altitude t "A" = Ok la /\ altitude t "B" = Ok lb /\
    altitude t "C" = Ok lc /\
    (line_point la = pa /\ line_point lb = pb /\ line_point lc = pc) /\
    (dot (line_direction la) (from_points pb pc) = 0 /\
     dot (line_direction lb) (from_points pc pa) = 0 /\
     dot (line_direction lc) (from_points pa pb) = 0) /\
    (length pa = length (line_direction la) /\
     length pb = length (line_direction lb) /\
     length pc = length (line_direction lc)).
Proof.
  intros I.
  destruct (altitude_constructed test test_complete pa pb pc t I)
    as [A [B C]].
  apply Triangle_init_inv in I. destruct I as [S [Col _]].
  destruct (constructed_distinct test test_complete pa pb pc S Col)
    as [Nab [Nbc Nca]].
  destruct S as [Lab Lbc].
  do 3 eexists. split; [exact A |]. split; [exact B |]. split; [exact C |].
  simpl. split; [auto |]. split.
  - repeat split; apply project_point_perpendicular;
      rewrite ?from_points_length; try congruence;
      apply Rgt_not_eq, dot_from_points_pos; congruence.
  - repeat split; rewrite from_points_length; try reflexivity;
      rewrite project_point_length; rewrite ?from_points_length; congruence.
Qed.

(** X12. The three altitudes of a constructed triangle exist; each passes
    through its vertex and its direction is perpendicular to the opposite
    side. *)
Theorem altitudes_perpendicular (pa pb pc : list R) (t : Triangle) :
  Triangle_init test pa pb pc = Ok t ->
  exists la lb lc,
    altitude t "A" = Ok la /\ altitude t "B" = Ok lb /\
    altitude t "C" = Ok lc /\
    line_point la = pa /\ line_point lb = pb /\ line_point lc = pc /\
    perpendicular (line_direction la) (from_points pb pc) /\
    perpendicular (line_direction lb) (from_points pc pa) /\
    perpendicular (line_direction lc) (from_points pa pb).
Proof.
  intros I.
  destruct (altitudes_constructed_perp pa pb pc t I)
    as [la [lb [lc [A [B [C [[Pa [Pb Pc]] [[Da [Db Dc]] _]]]]]]]].
  exists la, lb, lc. unfold perpendicular. repeat split; assumption.
Qed.

Lemma call_method_altitude (d : nat) (t : @Triangle R) (x : string) :
  call_method (S d) t M_altitude x = (r <- altitude t x ;; Ok (VLine r)).
Proof. reflexivity. Qed.

Lemma multiple_altitude_mapM (t : @Triangle R) (inputs : string) :
  multiple t "altitude" inputs =
  mapM (fun x => r <- altitude t x ;; Ok (VLine r)) (chars inputs).
Proof.
  unfold multiple, multiple_with, recursion_limit.
  change 1000 with (S 999).
  change (getattr "altitude") with (@Ok attribute M_altitude).
  cbv beta iota delta [bind]. generalize 999. intros d.
  induction (chars inputs) as [| x l IH]; [reflexivity |].
  cbn [mapM]. rewrite call_method_altitude, IH. reflexivity.
Qed.

Lemma mapM_altitude (pa pb pc : list R) (t : Triangle) (l : list string) :
  Triangle_init test pa pb pc = Ok t ->
  (Forall (fun x => In x vertex_labels) l ->
   exists vs,
     mapM (fun x => r <- altitude t x ;; Ok (VLine r)) l = Ok vs /\
     Forall2 (fun x v => exists r, altitude t x = Ok r /\ v = VLine r) l vs) /\
  (~ Forall (fun x => In x vertex_labels) l ->
   mapM (fun x => r <- altitude t x ;; Ok (VLine r)) l
     = Err invalid_vertex_error).
Proof.
  intros I. induction l as [| x l [IHok IHerr]].
  - split; [intros _; exists []; split; [reflexivity | constructor] |].
    intros N. exfalso. apply N. constructor.
  - destruct (altitude_label_constructed test test_complete pa pb pc t x I)
      as [Ok_x Err_x].
    split.
    + intros Fa. inversion Fa as [| ? ? Ix Fl]; subst.
      destruct (IHok Fl) as [vs [E F2]]. destruct (Ok_x Ix) as [r Er].
      exists (VLine r :: vs). simpl. rewrite Er. simpl. rewrite E. simpl.
      split; [reflexivity |]. constructor; [eauto | exact F2].
    + intros N. simpl.
      destruct (in_dec string_dec x vertex_labels) as [Ix | Nx].
      * destruct (Ok_x Ix) as [r Er]. rewrite Er. simpl.
        rewrite IHerr; [reflexivity |].
        intros Fl. apply N. now constructor.
      * rewrite (proj2 Err_x Nx). reflexivity.
Qed.

(** X13. In exact arithmetic, over the reals, and with a collinearity test
    of the constructor that reports every exactly collinear triple: on a
    constructed triangle [multiple('altitude', inputs)] returns one line per
    character of the input, the altitude of that vertex, in order, when
    every character is one of 'A', 'B', 'C', and raises the invalid-argument
    error of [altitude] otherwise. *)
Theorem multiple_altitude (pa pb pc : list R) (t : Triangle)
    (inputs : string) :
  Triangle_init test pa pb pc = Ok t ->
  (Forall (fun x => In x vertex_labels) (chars inputs) ->
   exists vs,
     multiple t "altitude" inputs = Ok vs /\
     length vs = String.length inputs /\
     Forall2 (fun x v => exists r, altitude t x = Ok r /\ v = VLine r)
             (chars inputs) vs) /\
  (~ Forall (fun x => In x vertex_labels) (chars inputs) ->
   multiple t "altitude" inputs = Err invalid_vertex_error).
Proof.
  intros I. rewrite multiple_altitude_mapM.
  destruct (mapM_altitude pa pb pc t (chars inputs) I) as [Hok Herr].
  split; [| exact Herr].
  intros Fa. destruct (Hok Fa) as [vs [E F2]].
  exists vs. split; [exact E |]. split; [| exact F2].
  rewrite <- chars_length. symmetry. eapply Forall2_length. exact F2.
Qed.

Lemma vec_eqb_eq (u v : list R) : vec_eqb u v = true -> u = v.
Proof.
  unfold vec_eqb. rewrite andb_true_iff, Nat.eqb_eq. intros [L E].
  revert v L E. induction u as [| x u IH]; intros [| y v] L E;
    try discriminate; [reflexivity |].
  simpl in E. apply andb_true_iff in E. destruct E as [Exy E].
  apply Reqb_eq in Exy. f_equal; [exact Exy |].
  apply IH; [now injection L | exact E].
Qed.

Lemma intersect_line_on_both (l1 l2 : Line) (h : list R) :
  intersect_line l1 l2 = Ok h -> on_line h l1 /\ on_line h l2.
Proof.
  unfold intersect_line, on_line.
  destruct (feqb _ f0); [discriminate |].
  destruct (vec_eqb _ _) eqn:E; [| discriminate].
  apply vec_eqb_eq in E. intros X. injection X as <-.
  split; eexists; [reflexivity | exact E].
Qed.

Lemma from_points_vadd (p v : list R) :
  length p = length v -> from_points p (vadd p v) = v.
Proof.
  revert v. induction p as [| x p IH]; intros [| y v] L; try discriminate;
    [reflexivity |].
  unfold vadd in *. simpl. rewrite from_points_cons. f_equal; [ring |].
  apply IH. now injection L.
Qed.

Lemma three_perpendiculars (a b c h : list R) :
  length a = length b -> length b = length c -> length c = length h ->
  dot (from_points a h) (from_points b c)
  + dot (from_points b h) (from_points c a)
  + dot (from_points c h) (from_points a b) = 0.
Proof.
  revert b c h.
  induction a as [| x a IH]; intros [| y b] [| z c] [| w h] Lab Lbc Lch;
    try discriminate.
  - unfold dot. simpl. ring.
  - rewrite !from_points_cons, !dot_cons.
    pose proof (IH b c h ltac:(simpl in *; congruence)
                  ltac:(simpl in *; congruence)
                  ltac:(simpl in *; congruence)) as E.
    lra.
Qed.

Lemma on_line_perpendicular (p d h w : list R) :
  length p = length d -> on_line h (mkLine p d) -> dot d w = 0 ->
  dot (from_points p h) w = 0 /\ length h = length p.
Proof.
  intros L [k ->] P. simpl.
  assert (Lk : length p = length (vscale k d))
    by (unfold vscale; now rewrite length_map).
  rewrite from_points_vadd by exact Lk.
  rewrite dot_vscale_l, P. split; [ring |].
  unfold vadd. now apply zip_with_length.
Qed.

(** X14. When [orthocenter] returns a point of a constructed triangle, the
    point lies on the altitudes from A and from B and also on the third one:
    seen from each vertex it is in a direction perpendicular to the
    opposite side. *)
Theorem orthocenter_on_three_altitudes (pa pb pc h : list R) (t : Triangle) :
  Triangle_init test pa pb pc = Ok t ->
  orthocenter t = Ok h ->
  (exists la lb, altitude t "A" = Ok la /\ altitude t "B" = Ok lb /\
                 on_line h la /\ on_line h lb) /\
  perpendicular (from_points pa h) (from_points pb pc) /\
  perpendicular (from_points pb h) (from_points pc pa) /\
  perpendicular (from_points pc h) (from_points pa pb).
Proof.
  intros I O.
  destruct (altitudes_constructed_perp pa pb pc t I)
    as [la [lb [lc [A [B [_ [[Pa [Pb _]] [[Da [Db _]] [La [Lb _]]]]]]]]]].
  unfold orthocenter in O. rewrite A, B in O. simpl in O.
  destruct (intersect_line_on_both la lb h O) as [Oa Ob].
  apply Triangle_init_inv in I. destruct I as [[Lab Lbc] _].
  destruct la as [qa da]. destruct lb as [qb db]. simpl in *. subst qa qb.
  destruct (on_line_perpendicular pa da h _ La Oa Da) as [Ha Lh].
  destruct (on_line_perpendicular pb db h _ Lb Ob Db) as [Hb _].
  split; [exists (mkLine pa da), (mkLine pb db); auto |].
  unfold perpendicular. split; [exact Ha |]. split; [exact Hb |].
  pose proof (three_perpendiculars pa pb pc h Lab Lbc ltac:(congruence)) as E.
  lra.
Qed.

End Perpendicular.

(** ** Existence of the orthocenter *)

Section OrthocenterLemmas.

Local Open Scope R_scope.

Lemma lincomb_cons (s t x y : R) (u v : list R) :
  lincomb s t (x :: u) (y :: v) = (s * x + t * y) :: lincomb s t u v.
Proof. reflexivity. Qed.

Lemma dot_lincomb2 (s t s' t' : R) (u v : list R) :
  length u = length v ->
  dot (lincomb s t u v) (lincomb s' t' u v)
  = s * s' * dot u u + (s * t' + t * s') * dot u v + t * t' * dot v v.
Proof.
  revert v. induction u as [| x u IH]; intros [| y v] L; try discriminate.
  - unfold dot. simpl. ring.
  - rewrite !lincomb_cons, !dot_cons, IH by (now injection L). ring.
Qed.

Lemma vadd_cons (x y : R) (u v : list R) :
  vadd (x :: u) (y :: v) = (x + y) :: vadd u v.
Proof. reflexivity. Qed.

Lemma vscale_cons (k x : R) (u : list R) :
  vscale k (x :: u) = (k * x) :: vscale k u.
Proof. reflexivity. Qed.

(** The edge vectors in terms of [u = b - a] and [v = c - a]. *)
Lemma edge_ba (a b c : list R) :
  length a = length b -> length b = length c ->
  from_points b a = lincomb (-1) 0 (from_points a b) (from_points a c).
Proof.
  revert b c. induction a as [| x a IH]; intros [| y b] [| z c] Lab Lbc;
    try discriminate; [reflexivity |].
  rewrite !from_points_cons, lincomb_cons. f_equal; [ring |].
  apply IH; simpl in *; congruence.
Qed.

Lemma foot_a_lincomb (k : R) (a b c : list R) :
  length a = length b -> length b = length c ->
  from_points a (vadd b (vscale k (from_points b c)))
  = lincomb (1 - k) k (from_points a b) (from_points a c).
Proof.
  revert b c. induction a as [| x a IH]; intros [| y b] [| z c] Lab Lbc;
    try discriminate; [reflexivity |].
  rewrite !from_points_cons, vscale_cons, vadd_cons, from_points_cons,
    lincomb_cons.
  f_equal; [ring |]. apply IH; simpl in *; congruence.
Qed.

Lemma foot_b_lincomb (k : R) (a b c : list R) :
  length a = length b -> length b = length c ->
  from_points b (vadd c (vscale k (from_points c a)))
  = lincomb (-1) (1 - k) (from_points a b) (from_points a c).
Proof.
  revert b c. induction a as [| x a IH]; intros [| y b] [| z c] Lab Lbc;
    try discriminate; [reflexivity |].
  rewrite !from_points_cons, vscale_cons, vadd_cons, from_points_cons,
    lincomb_cons.
  f_equal; [ring |]. apply IH; simpl in *; congruence.
Qed.

(** Two parameters that solve the point equality of the two altitudes. *)
Lemma altitudes_meet (t1 t2 ka kb : R) (a b c : list R) :
  length a = length b -> length b = length c ->
  t1 * (1 - ka) + t2 = 1 -> t1 * ka = t2 * (1 - kb) ->
  vadd a (vscale t1 (lincomb (1 - ka) ka (from_points a b) (from_points a c)))
  = vadd b (vscale t2 (lincomb (-1) (1 - kb) (from_points a b) (from_points a c))).
Proof.
  intros Lab Lbc E1 E2. revert b c Lab Lbc.
  induction a as [| x a IH]; intros [| y b] [| z c] Lab Lbc;
    try discriminate; [reflexivity |].
  rewrite !from_points_cons, !lincomb_cons, !vscale_cons, !vadd_cons.
  f_equal; [| apply IH; simpl in *; congruence].
  assert (E3 : t1 + t2 * kb = 1) by lra.
  assert (D : x + t1 * ((1 - ka) * (y - x) + ka * (z - x))
              - (y + t2 * (-1 * (y - x) + (1 - kb) * (z - x)))
              = x * (1 - (t1 + t2 * kb)) + y * (t1 * (1 - ka) + t2 - 1)
                + z * (t1 * ka - t2 * (1 - kb))) by ring.
  rewrite E3, E1, E2 in D. lra.
Qed.

Lemma edge_bc (a b c : list R) :
  length a = length b -> length b = length c ->
  from_points b c = lincomb (-1) 1 (from_points a b) (from_points a c).
Proof.
  revert b c. induction a as [| x a IH]; intros [| y b] [| z c] Lab Lbc;
    try discriminate; [reflexivity |].
  rewrite !from_points_cons, lincomb_cons. f_equal; [ring |].
  apply IH; simpl in *; congruence.
Qed.

Lemma edge_ca (a b c : list R) :
  length a = length b -> length b = length c ->
  from_points c a = lincomb 0 (-1) (from_points a b) (from_points a c).
Proof.
  revert b c. induction a as [| x a IH]; intros [| y b] [| z c] Lab Lbc;
    try discriminate; [reflexivity |].
  rewrite !from_points_cons, lincomb_cons. f_equal; [ring |].
  apply IH; simpl in *; congruence.
Qed.

Lemma edge_cb (a b c : list R) :
  length a = length b -> length b = length c ->
  from_points c b = lincomb 1 (-1) (from_points a b) (from_points a c).
Proof.
  revert b c. induction a as [| x a IH]; intros [| y b] [| z c] Lab Lbc;
    try discriminate; [reflexivity |].
  rewrite !from_points_cons, lincomb_cons. f_equal; [ring |].
  apply IH; simpl in *; congruence.
Qed.


Lemma vec_eqb_refl (u : list R) : vec_eqb u u = true.
Proof.
  unfold vec_eqb. rewrite Nat.eqb_refl. simpl.
  induction u as [| x u IH]; [reflexivity |].
  simpl. rewrite IH. now rewrite Reqb_true.
Qed.

Lemma altitude_lines_intersect (ka kb : R) (a b c : list R) :
  length a = length b -> length b = length c ->
  let u := from_points a b in
  let v := from_points a c in
  dot u v * dot u v < dot u u * dot v v ->
  (1 - ka) * (1 - kb) + ka <> 0 ->
  exists h,
    intersect_line (mkLine a (lincomb (1 - ka) ka u v))
                   (mkLine b (lincomb (-1) (1 - kb) u v)) = Ok h.
Proof.
  intros Lab Lbc u v G D.
  assert (Luv : length u = length v).
  { unfold u, v. rewrite !from_points_length; congruence. }
  unfold intersect_line. cbn [line_point line_direction].
  rewrite (edge_ba a b c Lab Lbc). fold u v.
  rewrite !dot_lincomb2 by exact Luv.
  set (P := dot u u) in *. set (Q := dot v v) in *. set (X := dot u v) in *.
  match goal with
  | |- context [feqb ?e f0] => set (den := e)
  end.
  assert (Eden : den = ((1 - ka) * (1 - kb) + ka) * ((1 - ka) * (1 - kb) + ka)
                       * (P * Q - X * X)).
  { unfold den. simpl. ring. }
  assert (Nden : den <> 0).
  { rewrite Eden. apply Rmult_integral_contrapositive_currified;
      [apply Rmult_integral_contrapositive_currified; exact D | lra]. }
  change (feqb den f0) with (Reqb den 0). rewrite (Reqb_false den 0 Nden).
  match goal with
  | |- context [vscale (fdiv ?e den) (lincomb (1 - ka) ka u v)] =>
      set (N1 := e)
  end.
  match goal with
  | |- context [vscale (fdiv ?e den) (lincomb (-1) (1 - kb) u v)] =>
      set (N2 := e)
  end.
  assert (E1 : fdiv N1 den * (1 - ka) + fdiv N2 den = 1).
  { simpl. replace (N1 / den * (1 - ka) + N2 / den)
      with ((N1 * (1 - ka) + N2) / den) by (field; exact Nden).
    replace (N1 * (1 - ka) + N2) with den;
      [field; exact Nden | unfold den, N1, N2; simpl; ring]. }
  assert (E2 : fdiv N1 den * ka = fdiv N2 den * (1 - kb)).
  { simpl. apply Rmult_eq_reg_r with den; [| exact Nden].
    replace (N1 / den * ka * den) with (N1 * ka) by (field; exact Nden).
    replace (N2 / den * (1 - kb) * den) with (N2 * (1 - kb))
      by (field; exact Nden).
    unfold N1, N2. simpl. ring. }
  pose proof (altitudes_meet _ _ ka kb a b c Lab Lbc E1 E2) as M.
  fold u v in M. rewrite M, vec_eqb_refl. eauto.
Qed.

End OrthocenterLemmas.

Section OrthocenterExists.

Local Open Scope R_scope.

Variable test : list (list R) -> bool.
Hypothesis test_complete : complete_collinearity_test test.

(** X15. [orthocenter] returns a point for every constructed triangle, in
    every dimension: the altitudes from A and from B are never parallel and
    always meet. *)
Theorem orthocenter_exists (pa pb pc : list R) (t : Triangle) :
  Triangle_init test pa pb pc = Ok t ->
  exists h, orthocenter t = Ok h.
Proof.
  intros I.
  destruct (altitude_constructed test test_complete pa pb pc t I)
    as [A [B _]].
  apply Triangle_init_inv in I. destruct I as [S [Col _]].
  destruct (constructed_distinct test test_complete pa pb pc S Col)
    as [Nab [Nbc Nca]].
  destruct S as [Lab Lbc].
  unfold orthocenter. rewrite A, B. cbn [bind].
  unfold project_point. cbn [line_point line_direction].
  rewrite foot_a_lincomb, foot_b_lincomb by assumption.
  set (u := from_points pa pb). set (v := from_points pa pc).
  assert (Luv : length u = length v).
  { unfold u, v. rewrite !from_points_length; congruence. }
  assert (G : dot u v * dot u v < dot u u * dot v v).
  { apply cauchy_schwarz_strict; [exact Luv |].
    intros Dep. apply test_complete in Dep. congruence. }
  apply altitude_lines_intersect; try assumption.
  rewrite (edge_bc pa pb pc Lab Lbc), (edge_ca pa pb pc Lab Lbc),
    (edge_cb pa pb pc Lab Lbc), (edge_ba pa pb pc Lab Lbc).
  fold u v. rewrite !dot_lincomb2 by exact Luv.
  pose proof (dot_from_points_pos pb pc Lbc Nbc) as W.
  rewrite (dot_from_points pa pb pc Lab Lbc) in W. fold u v in W.
  pose proof (dot_from_points_pos pa pc ltac:(congruence) ltac:(congruence)) as Q.
  fold v in Q.
  set (P := dot u u) in *. set (Qq := dot v v) in *. set (X := dot u v) in *.
  simpl.
  intros E.
  match type of E with
  | ?lhs = 0 =>
      assert (Z : lhs = (P * Qq - X * X) / (Qq * (P + Qq - 2 * X)))
        by (field; split; lra)
  end.
  rewrite Z in E.
  apply Rmult_integral in E. destruct E as [E | E]; [lra |].
  assert (0 < / (Qq * (P + Qq - 2 * X))).
  { apply Rinv_0_lt_compat. apply Rmult_lt_0_compat; lra. }
  lra.
Qed.
End OrthocenterExists.

(** ** Area, base and height; the dimension of a triangle *)

Section BaseHeight.

Local Open Scope R_scope.

Variable test : list (list R) -> bool.
Hypothesis test_complete : complete_collinearity_test test.

Ltac shapes4 p := destruct p as [| ? [| ? [| ? [| ? ?]]]].

(** Lagrange's identity, up to 3D. *)
Lemma lagrange_identity (u v n : list R) :
  length u = length v -> cross u v = Ok n ->
  dot n n = dot u u * dot v v - dot u v * dot u v.
Proof.
  intros L C.
  shapes4 u; shapes4 v; try discriminate; simpl in C;
    injection C as <-; unfold dot; simpl; ring.
Qed.

Lemma foot_c_lincomb (k : R) (a b c : list R) :
  length a = length b -> length b = length c ->
  from_points c (vadd a (vscale k (from_points a b)))
  = lincomb k (-1) (from_points a b) (from_points a c).
Proof.
  revert b c. induction a as [| x a IH]; intros [| y b] [| z c] Lab Lbc;
    try discriminate; [reflexivity |].
  rewrite !from_points_cons, vscale_cons, vadd_cons, from_points_cons,
    lincomb_cons.
  f_equal; [ring |]. apply IH; simpl in *; congruence.
Qed.

Lemma half_base_height (g w h : R) :
  0 < w -> w * h = g -> / 2 * sqrt g = / 2 * sqrt w * sqrt h.
Proof.
  intros W E. rewrite Rmult_assoc, <- sqrt_mult_alt by lra. now rewrite E.
Qed.

(** X16. Half of base times height: the area of a constructed triangle of
    dimension at most 3 is half the length of a side times the length of
    the direction of the altitude on that side, which runs from the vertex
    to its foot; this holds for each of the three sides. *)
Theorem area_base_height (pa pb pc : list R) (t : Triangle) :
  Triangle_init test pa pb pc = Ok t -> (dimension t <= 3)%nat ->
  exists x a b c la lb lc,
    area t = Ok x /\ side_lengths t = Ok (a, b, c) /\
    altitude t "A" = Ok la /\ altitude t "B" = Ok lb /\
    altitude t "C" = Ok lc /\
    x = / 2 * a * norm (line_direction la) /\
    x = / 2 * b * norm (line_direction lb) /\
    x = / 2 * c * norm (line_direction lc).
Proof.
  intros I D.
  destruct (altitude_constructed test test_complete pa pb pc t I)
    as [A [B C]].
  apply Triangle_init_inv in I. destruct I as [S [Col ->]].
  destruct (constructed_distinct test test_complete pa pb pc S Col)
    as [Nab [Nbc Nca]].
  destruct S as [Lab Lbc]. simpl in D.
  set (u := from_points pa pb). set (v := from_points pa pc).
  assert (Lu : length u = length pa) by (now apply from_points_length).
  assert (Lv : length v = length pa)
    by (apply from_points_length; congruence).
  destruct (cross_total u v) as [n N]; [lia | lia |].
  pose proof (lagrange_identity u v n ltac:(congruence) N) as Ln.
  pose proof (dot_from_points_pos pb pc Lbc Nbc) as W.
  rewrite (dot_from_points pa pb pc Lab Lbc) in W. fold u v in W.
  pose proof (dot_from_points_pos pa pc ltac:(congruence)
                ltac:(congruence)) as Q. fold v in Q.
  pose proof (dot_from_points_pos pa pb Lab Nab) as P. fold u in P.
  do 7 eexists. split.
  { unfold area, normal. cbn [point_a point_b point_c]. fold u v.
    rewrite N. reflexivity. }
  split; [apply side_lengths_ok |].
  split; [exact A |]. split; [exact B |]. split; [exact C |].
  cbn [point_a point_b point_c line_direction]. unfold project_point.
  cbn [line_point line_direction].
  rewrite foot_a_lincomb, foot_b_lincomb, foot_c_lincomb by assumption.
  fold u v.
  rewrite (edge_bc pa pb pc Lab Lbc), (edge_ca pa pb pc Lab Lbc),
    (edge_cb pa pb pc Lab Lbc), (edge_ba pa pb pc Lab Lbc).
  fold u v.
  unfold distance_point, norm. cbn [fsqrt R_scalar].
  rewrite (edge_bc pa pb pc Lab Lbc). fold u v.
  rewrite !dot_lincomb2 by congruence.
  rewrite Ln.
  set (p := dot u u) in *. set (q := dot v v) in *. set (r := dot u v) in *.
  cbn [fdiv fmul fadd fsub R_scalar].
  repeat split; apply half_base_height; try lra; field; lra.
Qed.

Lemma low_dimension_collinear (a b c : list R) :
  same_dimension a b c -> (length a <= 1)%nat -> collinear3 a b c.
Proof.
  intros [Lab Lbc] D. unfold collinear3, linearly_dependent.
  destruct a as [| x [| ? ?]]; simpl in D; try lia;
    destruct b as [| y [| ? ?]]; try discriminate;
    destruct c as [| z [| ? ?]]; try discriminate.
  - exists 1, 0. split; [left; lra | constructor].
  - rewrite !from_points_cons. unfold from_points. simpl.
    destruct (Req_dec_T (y - x) 0) as [Z | NZ].
    + exists 1, 0. split; [left; lra |]. repeat constructor. rewrite Z. ring.
    + exists (z - x), (- (y - x)). split; [right; lra |].
      repeat constructor. ring.
Qed.

(** X17. A constructed triangle has dimension at least 2: points of
    dimension 0 or 1 are always collinear and are rejected. *)
Theorem constructed_dimension_at_least_2 (pa pb pc : list R) (t : Triangle) :
  Triangle_init test pa pb pc = Ok t ->
  (2 <= dimension t)%nat /\
  dimension t = length pa /\ dimension t = length pb /\
  dimension t = length pc.
Proof.
  intros I. apply Triangle_init_inv in I. destruct I as [S [Col ->]].
  simpl. destruct S as [Lab Lbc].
  split; [| repeat split; congruence].
  destruct (le_lt_dec (length pa) 1) as [D | D]; [| lia].
  pose proof (test_complete pa pb pc
                (low_dimension_collinear pa pb pc (conj Lab Lbc) D)) as X.
  congruence.
Qed.

End BaseHeight.

(** ** The branch on the vertex label in [angle] *)

Section AngleBranch.

Local Open Scope R_scope.

Variable test : list (list R) -> bool.
Hypothesis test_complete : complete_collinearity_test test.

(** X18. Lines 322-334 of [angle], run on the three side lengths of a
    constructed triangle: each of the labels 'A', 'B', 'C' gives the arc
    cosine of its law-of-cosines quotient, an angle strictly between 0 and
    pi, and every other label gives the invalid-argument error. *)
Theorem angle_branch_on_side_lengths (pa pb pc : list R) (t : Triangle)
    (vertex : string) :
  Triangle_init test pa pb pc = Ok t ->
  let a := distance_point pb pc in
  let b := distance_point pa pc in
  let c := distance_point pa pb in
  (vertex = "A" ->
     angle_of_lengths (side_values t) vertex
       = Ok (acos ((b * b + c * c - a * a) / (2 * b * c)))) /\
  (vertex = "B" ->
     angle_of_lengths (side_values t) vertex
       = Ok (acos ((a * a + c * c - b * b) / (2 * a * c)))) /\
  (vertex = "C" ->
     angle_of_lengths (side_values t) vertex
       = Ok (acos ((a * a + b * b - c * c) / (2 * a * b)))) /\
  (In vertex vertex_labels ->
     exists x, angle_of_lengths (side_values t) vertex = Ok x /\ 0 < x < PI) /\
  (~ In vertex vertex_labels ->
     angle_of_lengths (side_values t) vertex = Err invalid_vertex_error).
Proof.
  intros I a b c.
  destruct (angle_of_lengths_constructed test test_complete pa pb pc t I)
    as [_ [A [B [C Rg]]]].
  fold a b c in A, B, C.
  split; [now intros -> |]. split; [now intros -> |].
  split; [now intros -> |]. split.
  - unfold vertex_labels. rewrite in_labels3.
    intros [-> | [-> | ->]]; eexists; (split; [eassumption |]);
      eapply Rg; eassumption.
  - unfold vertex_labels. rewrite in_labels3. intros N.
    unfold angle_of_lengths, side_values, angle_arg. cbn [unpack3 bind].
    destruct (String.eqb_spec vertex "A"); [tauto |].
    destruct (String.eqb_spec vertex "B"); [tauto |].
    destruct (String.eqb_spec vertex "C"); [tauto |].
    reflexivity.
Qed.

End AngleBranch.

(** ** Instances of the further properties *)

Section FurtherInstances.

Local Open Scope R_scope.

Lemma triangle_3d_constructed :
  Triangle_init are_collinear_exact [3; -5; 1] [5; 2; 1] [9; 4; 2]
  = Ok triangle_3d.
Proof.
  unfold Triangle_init, are_collinear_exact, are_collinear_tol,
    is_parallel_tol, minors. simpl.
  rewrite Rleb_false; [reflexivity |].
  apply Rabs_pos_lt. lra.
Qed.

Lemma multiple_unknown_name_at_length :
  String.prefix "__" "length" = false /\
  ~ In "length" attribute_names /\
  multiple triangle_10_01 "length" "abc" = Err (AttributeError "length").
Proof.
  assert (N : ~ In "length" attribute_names).
  { unfold attribute_names. simpl. intuition discriminate. }
  split; [reflexivity |]. split; [exact N |].
  exact (multiple_unknown_name triangle_10_01 "length" "abc" eq_refl N).
Defined.

Lemma multiple_empty_inputs_at_eq :
  (In "__eq__" attribute_names \/ In "__eq__" object_attributes) /\
  multiple triangle_10_01 "__eq__" "" = Ok [].
Proof.
  assert (I : In "__eq__" attribute_names \/ In "__eq__" object_attributes).
  { right. unfold object_attributes. simpl. tauto. }
  split; [exact I |].
  exact (multiple_empty_inputs triangle_10_01 "__eq__" I).
Defined.

Lemma lines_closed_polygon_at_10_01 :
  complete_collinearity_test are_collinear_exact /\
  Triangle_init are_collinear_exact [0; 0] [1; 0] [0; 1] = Ok triangle_10_01 /\
  exists line_ab line_bc line_ca,
    lines triangle_10_01 = Ok (line_ab, line_bc, line_ca) /\
    Forall (fun x => x = 0)
      (vadd (vadd (line_direction line_ab) (line_direction line_bc))
            (line_direction line_ca)).
Proof.
  split; [exact are_collinear_exact_complete |].
  split; [exact triangle_10_01_constructed |].
  destruct (lines_closed_polygon are_collinear_exact
              are_collinear_exact_complete [0; 0] [1; 0] [0; 1]
              triangle_10_01 triangle_10_01_constructed)
    as [lab [lbc [lca [L [_ [_ [_ [_ [_ [_ Z]]]]]]]]]].
  exists lab, lbc, lca. auto.
Defined.

Lemma side_lengths_triangle_inequality_at_10_01 :
  complete_collinearity_test are_collinear_exact /\
  Triangle_init are_collinear_exact [0; 0] [1; 0] [0; 1] = Ok triangle_10_01 /\
  exists a b c,
    side_lengths triangle_10_01 = Ok (a, b, c) /\
    a < b + c /\ b < a + c /\ c < a + b.
Proof.
  split; [exact are_collinear_exact_complete |].
  split; [exact triangle_10_01_constructed |].
  exact (side_lengths_triangle_inequality are_collinear_exact
           are_collinear_exact_complete [0; 0] [1; 0] [0; 1]
           triangle_10_01 triangle_10_01_constructed).
Defined.

Lemma side_lengths_swap_at_10_01 :
  exists a b c,
    side_lengths triangle_10_01 = Ok (a, b, c) /\
    side_lengths (swap_ab triangle_10_01) = Ok (b, a, c) /\
    side_lengths (swap_ac triangle_10_01) = Ok (c, b, a) /\
    side_lengths (swap_bc triangle_10_01) = Ok (a, c, b).
Proof.
  do 3 eexists. split; [apply side_lengths_ok |].
  exact (side_lengths_swap triangle_10_01 _ _ _
           (side_lengths_ok triangle_10_01)).
Defined.

Lemma area_swap_at_10_01 :
  Triangle_init are_collinear_exact [0; 0] [1; 0] [0; 1] = Ok triangle_10_01 /\
  (dimension triangle_10_01 <= 3)%nat /\
  area (swap_ab triangle_10_01) = area triangle_10_01 /\
  area (swap_ac triangle_10_01) = area triangle_10_01 /\
  area (swap_bc triangle_10_01) = area triangle_10_01.
Proof.
  assert (D : (dimension triangle_10_01 <= 3)%nat) by (simpl; lia).
  split; [exact triangle_10_01_constructed |]. split; [exact D |].
  exact (area_swap are_collinear_exact [0; 0] [1; 0] [0; 1] triangle_10_01
           triangle_10_01_constructed D).
Defined.

Lemma normal_perpendicular_to_edges_at_3d :
  Triangle_init are_collinear_exact [3; -5; 1] [5; 2; 1] [9; 4; 2]
    = Ok triangle_3d /\
  dimension triangle_3d = 3%nat /\
  exists n,
    normal triangle_3d = Ok n /\
    perpendicular n (from_points [3; -5; 1] [5; 2; 1]) /\
    perpendicular n (from_points [3; -5; 1] [9; 4; 2]) /\
    perpendicular n (from_points [5; 2; 1] [9; 4; 2]).
Proof.
  split; [exact triangle_3d_constructed |]. split; [reflexivity |].
  exact (normal_perpendicular_to_edges are_collinear_exact
           [3; -5; 1] [5; 2; 1] [9; 4; 2] triangle_3d
           triangle_3d_constructed eq_refl).
Defined.

Lemma altitudes_perpendicular_at_12_20 :
  complete_collinearity_test are_collinear_exact /\
  Triangle_init are_collinear_exact [0; 0] [1; 2] [2; 0] = Ok triangle_12_20 /\
  exists la lb lc,
    altitude triangle_12_20 "A" = Ok la /\
    altitude triangle_12_20 "B" = Ok lb /\
    altitude triangle_12_20 "C" = Ok lc /\
    perpendicular (line_direction la) (from_points [1; 2] [2; 0]) /\
    perpendicular (line_direction lb) (from_points [2; 0] [0; 0]) /\
    perpendicular (line_direction lc) (from_points [0; 0] [1; 2]).
Proof.
  split; [exact are_collinear_exact_complete |].
  split; [exact triangle_12_20_constructed |].
  destruct (altitudes_perpendicular are_collinear_exact
              are_collinear_exact_complete [0; 0] [1; 2] [2; 0]
              triangle_12_20 triangle_12_20_constructed)
    as [la [lb [lc [A [B [C [_ [_ [_ [Pa [Pb Pc]]]]]]]]]]].
  exists la, lb, lc. auto 10.
Defined.

Lemma multiple_altitude_at_12_20 :
  complete_collinearity_test are_collinear_exact /\
  Triangle_init are_collinear_exact [0; 0] [1; 2] [2; 0] = Ok triangle_12_20 /\
  (Forall (fun x => In x vertex_labels) (chars "ABC") ->
   exists vs,
     multiple triangle_12_20 "altitude" "ABC" = Ok vs /\
     length vs = String.length "ABC" /\
     Forall2 (fun x v => exists r, altitude triangle_12_20 x = Ok r /\
                                   v = VLine r)
             (chars "ABC") vs).
Proof.
  split; [exact are_collinear_exact_complete |].
  split; [exact triangle_12_20_constructed |].
  exact (proj1 (multiple_altitude are_collinear_exact
                  are_collinear_exact_complete [0; 0] [1; 2] [2; 0]
                  triangle_12_20 "ABC" triangle_12_20_constructed)).
Defined.

Lemma orthocenter_on_three_altitudes_at_12_20 :
  complete_collinearity_test are_collinear_exact /\
  Triangle_init are_collinear_exact [0; 0] [1; 2] [2; 0] = Ok triangle_12_20 /\
  orthocenter triangle_12_20 = Ok [1; / 2] /\
  perpendicular (from_points [0; 0] [1; / 2]) (from_points [1; 2] [2; 0]) /\
  perpendicular (from_points [1; 2] [1; / 2]) (from_points [2; 0] [0; 0]) /\
  perpendicular (from_points [2; 0] [1; / 2]) (from_points [0; 0] [1; 2]).
Proof.
  split; [exact are_collinear_exact_complete |].
  split; [exact triangle_12_20_constructed |].
  split; [exact orthocenter_12_20 |].
  exact (proj2 (orthocenter_on_three_altitudes are_collinear_exact
                  are_collinear_exact_complete [0; 0] [1; 2] [2; 0]
                  [1; / 2] triangle_12_20 triangle_12_20_constructed
                  orthocenter_12_20)).
Defined.

Lemma orthocenter_exists_at_3d :
  complete_collinearity_test are_collinear_exact /\
  Triangle_init are_collinear_exact [3; -5; 1] [5; 2; 1] [9; 4; 2]
    = Ok triangle_3d /\
  exists h, orthocenter triangle_3d = Ok h.
Proof.
  split; [exact are_collinear_exact_complete |].
  split; [exact triangle_3d_constructed |].
  exact (orthocenter_exists are_collinear_exact are_collinear_exact_complete
           [3; -5; 1] [5; 2; 1] [9; 4; 2] triangle_3d
           triangle_3d_constructed).
Defined.

Lemma area_base_height_at_3d :
  complete_collinearity_test are_collinear_exact /\
  Triangle_init are_collinear_exact [3; -5; 1] [5; 2; 1] [9; 4; 2]
    = Ok triangle_3d /\
  (dimension triangle_3d <= 3)%nat /\
  exists x a la,
    area triangle_3d = Ok x /\ side_length triangle_3d "a" = Ok a /\
    altitude triangle_3d "A" = Ok la /\
    x = / 2 * a * norm (line_direction la).
Proof.
  assert (D : (dimension triangle_3d <= 3)%nat) by (simpl; lia).
  split; [exact are_collinear_exact_complete |].
  split; [exact triangle_3d_constructed |]. split; [exact D |].
  destruct (area_base_height are_collinear_exact
              are_collinear_exact_complete [3; -5; 1] [5; 2; 1] [9; 4; 2]
              triangle_3d triangle_3d_constructed D)
    as [x [a [b [c [la [lb [lc [Ar [S [A [_ [_ [E _]]]]]]]]]]]]].
  exists x, a, la. rewrite side_lengths_ok in S. injection S as <- _ _.
  auto.
Defined.

Lemma constructed_dimension_at_least_2_at_10_01 :
  complete_collinearity_test are_collinear_exact /\
  Triangle_init are_collinear_exact [0; 0] [1; 0] [0; 1] = Ok triangle_10_01 /\
  (2 <= dimension triangle_10_01)%nat.
Proof.
  split; [exact are_collinear_exact_complete |].
  split; [exact triangle_10_01_constructed |].
  exact (proj1 (constructed_dimension_at_least_2 are_collinear_exact
                  are_collinear_exact_complete [0; 0] [1; 0] [0; 1]
                  triangle_10_01 triangle_10_01_constructed)).
Defined.

Lemma angle_branch_on_side_lengths_at_10_01 :
  complete_collinearity_test are_collinear_exact /\
  Triangle_init are_collinear_exact [0; 0] [1; 0] [0; 1] = Ok triangle_10_01 /\
  (In "A" vertex_labels ->
     exists x, angle_of_lengths (side_values triangle_10_01) "A" = Ok x /\
               0 < x < PI).
Proof.
  split; [exact are_collinear_exact_complete |].
  split; [exact triangle_10_01_constructed |].
  exact (proj1 (proj2 (proj2 (proj2
           (angle_branch_on_side_lengths are_collinear_exact
              are_collinear_exact_complete [0; 0] [1; 0] [0; 1]
              triangle_10_01 "A" triangle_10_01_constructed))))).
Defined.

End FurtherInstances.
